(** * voeparse: namespace toggling, codec, validation and coordinate
      extraction of [voeparse/voeparse.py], as a shallow embedding.

    The Python module works on one mutable lxml.objectify tree [v] that every
    function receives by reference.  Here that tree is the state of a small
    state-and-exception monad [Py]; a function of the module that takes [v]
    becomes a computation in [Py], and what Python leaves in [v] after
    the call is the final state, also when the call raises. *)

From Stdlib Require Import Ascii.
From stdpp Require Import gmap strings list fin_maps.

Set Warnings "-register-all".
Open Scope string_scope.

(** ** Python strings

    A [string] is a Python 2 [str]: a sequence of bytes. *)

Module PyStr.

(** [s.startswith(p)] *)
Fixpoint startswith (s p : string) {struct p} : bool :=
  match p with
  | "" => true
  | String a p' =>
      match s with
      | "" => false
      | String b s' => if decide (a = b) then startswith s' p' else false
      end
  end.

(** Left-to-right scan of [str.replace] for a non-empty [old]: [skip] counts
    the characters of a match that are still to be dropped. *)
Fixpoint replace_scan (old new : string) (skip : nat) (s : string) : string :=
  match s with
  | "" => ""
  | String c s' =>
      match skip with
      | S k => replace_scan old new k s'
      | O =>
          if startswith s old
          then new +:+ replace_scan old new (String.length old - 1) s'
          else String c (replace_scan old new 0 s')
      end
  end.

(** [s.replace("", new)]: [new] goes before every character and at the end. *)
Fixpoint interleave (new s : string) : string :=
  match s with
  | "" => new
  | String c s' => new +:+ String c (interleave new s')
  end.

(** [s.replace(old, new)]: every non-overlapping occurrence, leftmost first. *)
Definition replace (s old new : string) : string :=
  match old with
  | "" => interleave new s
  | String _ _ => replace_scan old new 0 s
  end.

(** [c in s] for a single character. *)
Fixpoint contains_char (c : ascii) (s : string) : bool :=
  match s with
  | "" => false
  | String b s' => if decide (c = b) then true else contains_char c s'
  end.

(** [old in s]: [old] occurs in [s] as a substring. *)
Definition occurs (old s : string) : Prop :=
  exists pre post, s = pre +:+ old +:+ post.

(** The bytes that lxml takes in a [str] handed to the tree (libxml2's
    [xmlIsChar_ch] on a signed char): tab, line feed, carriage return and
    32 to 127; no NUL, no other control character, no byte above 127. *)
Definition xml_char (c : ascii) : bool :=
  let n := nat_of_ascii c in
  Nat.eqb n 9 || Nat.eqb n 10 || Nat.eqb n 13
  || (Nat.leb 32 n && Nat.ltb n 128).

(** lxml's test of a [str] before it goes into the tree: every byte is
    one it takes. *)
Fixpoint xml_compatible (s : string) : bool :=
  match s with
  | "" => true
  | String c s' => xml_char c && xml_compatible s'
  end.

End PyStr.

(** ** The element tree (lxml) *)

(** An element as the module sees it: [tag] is the Clark-notation string that
    [v.tag] reads and writes (["{uri}local"], or ["local"] when the element is
    in no namespace), [nsmap] the prefix-to-URI dictionary ([None] is the
    default namespace), [attrib] the attribute dictionary with Clark-notation
    keys. *)
Inductive Element : Type :=
  mkElement {
    tag : string;
    nsmap : gmap (option string) string;
    attrib : gmap string string;
    text : option string;
    children : list Element
  }.

Definition with_tag (t : string) (v : Element) : Element :=
  mkElement t (nsmap v) (attrib v) (text v) (children v).

Definition with_attrib (a : gmap string string) (v : Element) : Element :=
  mkElement (tag v) (nsmap v) a (text v) (children v).

(** Attribute names that objectify uses for its type annotations. *)
Definition PYTYPE_ATTRIBUTE : string :=
  "{http://codespeak.net/lxml/objectify/pytype}pytype".
Definition XML_SCHEMA_INSTANCE_TYPE_ATTR : string :=
  "{http://www.w3.org/2001/XMLSchema-instance}type".

Definition strip_annotations (a : gmap string string) : gmap string string :=
  delete XML_SCHEMA_INSTANCE_TYPE_ATTR (delete PYTYPE_ATTRIBUTE a).

(** [objectify.deannotate(v)] with its default arguments: the two annotation
    attributes are removed from the element and from all its descendants. *)
Fixpoint deannotate_tree (e : Element) : Element :=
  match e with
  | mkElement t ns a x cs =>
      mkElement t ns (strip_annotations a) x (map deannotate_tree cs)
  end.

(** No element of the tree carries an annotation attribute. *)
Fixpoint annotation_free (e : Element) : bool :=
  match e with
  | mkElement _ _ a _ cs =>
      bool_decide (a !! PYTYPE_ATTRIBUTE = None)
      && bool_decide (a !! XML_SCHEMA_INSTANCE_TYPE_ATTR = None)
      && forallb annotation_free cs
  end.

(** The namespace part of a Clark-notation tag, braces included; empty for a
    tag in no namespace. *)
Fixpoint through_brace (s : string) : option string :=
  match s with
  | "" => None
  | String c s' =>
      if decide (c = "}"%char) then Some "}"
      else String c <$> through_brace s'
  end.

Definition tag_namespace (t : string) : string :=
  match t with
  | String c s =>
      if decide (c = "{"%char)
      then match through_brace s with
           | Some u => String c u
           | None => ""
           end
      else ""
  | "" => ""
  end.

(** objectify's attribute-style child access [parent.name]: the first child
    whose local name is [name] and whose namespace is the parent's. *)
Definition lookup_child (parent : Element) (name : string) : option Element :=
  find (fun c => bool_decide (tag c = tag_namespace (tag parent) +:+ name))
       (children parent).

(** [parent.n1.n2...] *)
Fixpoint descend (e : Element) (path : list string) : option Element :=
  match path with
  | [] => Some e
  | n :: ns =>
      match lookup_child e n with
      | Some c => descend c ns
      | None => None
      end
  end.

(** [e == s] for a string [s], on elements that carry no type hint (none
    of py:pytype, xsi:type, xsi:nil): a data element, one without children,
    compares by its text, and an element with children only equals itself.
    A type hint makes objectify pick another element class, whose [==] is
    not described here. *)
Definition elem_eq_str (e : Element) (s : string) : bool :=
  match children e with
  | [] => bool_decide (text e = Some s)
  | _ :: _ => false
  end.

(** ** Exceptions and the monad *)

Inductive Exception : Type :=
| KeyError (key : string)
| AttributeError (name : string)
| AssertionError
| ValueError (msg : string)
| DocumentInvalid (reason : string)
| XMLSyntaxError.

Inductive outcome (A : Type) : Type :=
| Returns (a : A)
| Raises (e : Exception).
Arguments Returns {A} a.
Arguments Raises {A} e.

(** A computation on the tree [v]: the outcome and the tree it leaves. *)
Definition Py (A : Type) : Type := Element -> outcome A * Element.

#[global] Instance Py_ret : MRet Py := fun A a v => (Returns a, v).
#[global] Instance Py_bind : MBind Py := fun A B f m v =>
  match m v with
  | (Returns a, v') => f a v'
  | (Raises e, v') => (Raises e, v')
  end.

Definition raise {A} (e : Exception) : Py A := fun v => (Raises e, v).

(** [try: body except AttributeError: handler] *)
Definition except_AttributeError {A} (body handler : Py A) : Py A := fun v =>
  match body v with
  | (Raises (AttributeError _), v') => handler v'
  | r => r
  end.

(** [assert b], the interpreter running without [-O]. *)
Definition py_assert (b : bool) : Py unit :=
  if b then mret () else raise AssertionError.

(** Reads and writes of the root [v].  Writing [v.tag] stores the string;
    lxml also keeps the namespace declarations of the element, so [v.nsmap]
    is the same before and after. *)
Definition this : Py Element := fun v => (Returns v, v).
Definition get_tag : Py string := fun v => (Returns (tag v), v).
Definition set_tag (t : string) : Py unit := fun v => (Returns (), with_tag t v).

(** [v.nsmap[k]] *)
Definition nsmap_getitem (k : string) : Py string := fun v =>
  match nsmap v !! Some k with
  | Some uri => (Returns uri, v)
  | None => (Raises (KeyError k), v)
  end.

(** The ValueError of lxml for a [str] it does not take. *)
Definition XML_COMPATIBLE_MESSAGE : string :=
  "All strings must be XML compatible: Unicode or ASCII, no NULL bytes or control characters".

(** [v.attrib[k] = x], for a [k] that is a well-formed attribute name: lxml
    tests name and value and raises ValueError, the tree untouched, when
    one holds a byte it does not take. *)
Definition attrib_setitem (k x : string) : Py unit := fun v =>
  if PyStr.xml_compatible k && PyStr.xml_compatible x
  then (Returns (), with_attrib (<[k := x]> (attrib v)) v)
  else (Raises (ValueError XML_COMPATIBLE_MESSAGE), v).

(** [e.attrib[k]] on an element reached from [v] *)
Definition attrib_getitem (e : Element) (k : string) : Py string :=
  match attrib e !! k with
  | Some x => mret x
  | None => raise (KeyError k)
  end.

(** [e.name] on an element reached from [v] *)
Definition getattr (e : Element) (name : string) : Py Element :=
  match lookup_child e name with
  | Some c => mret c
  | None => raise (AttributeError name)
  end.

(** [objectify.deannotate(v)] *)
Definition deannotate : Py unit := fun v => (Returns (), deannotate_tree v).

(** ** lxml parsing and serialisation

    A byte string is represented by what an XML parser makes of it: the tree
    of a well-formed document together with the two formatting choices of
    [etree.tostring], or no tree at all.  [objectify.fromstring] gives the
    tree back (XMLSyntaxError when there is none) and [etree.tostring] wraps
    the tree it is given; whitespace and declaration differences are thereby
    kept apart from the tree. *)
Inductive xml_str : Type :=
| NotXml (raw : string)
| Xml (xml_declaration pretty_print : bool) (root : Element).

Definition fromstring (s : xml_str) : outcome Element :=
  match s with
  | Xml _ _ root => Returns root
  | NotXml _ => Raises XMLSyntaxError
  end.

Definition tostring (pretty_print xml_declaration : bool) : Py xml_str :=
  fun v => (Returns (Xml xml_declaration pretty_print v), v).

(** Two byte strings denote the same document, whatever their formatting. *)
Definition same_document (a b : xml_str) : Prop :=
  match a, b with
  | Xml _ _ r, Xml _ _ r' => r = r'
  | _, _ => False
  end.

(** A function that builds its tree and hands it back: [body] runs on the
    new tree and the caller receives that same object. *)
Definition returning_tree (parsed : outcome Element) (body : Py unit)
  : outcome Element :=
  match parsed with
  | Raises e => Raises e
  | Returns v =>
      match body v with
      | (Returns _, v') => Returns v'
      | (Raises e, _) => Raises e
      end
  end.

(** ** voeparse.py *)

Record Coords : Type := mkCoords {
  ra : Element; dec : Element; ra_err : Element; dec_err : Element;
  units : string; system : string
}.

Module CoordSystemIDs.
Definition fk5 : string := "UTC-FK5-GEO".
End CoordSystemIDs.

Module CoordUnits.
Definition degrees : string := "degrees".
End CoordUnits.

Definition _remove_root_tag_prefix : Py unit :=
  t ← get_tag;
  ns ← nsmap_getitem "voe";
  set_tag (PyStr.replace t ("{" +:+ ns +:+ "}") "").

Definition _reinsert_root_tag_prefix : Py unit :=
  ns ← nsmap_getitem "voe";
  set_tag ("{" +:+ ns +:+ "}VOEvent").

Definition _return_to_standard_xml : Py unit :=
  deannotate;;
  _reinsert_root_tag_prefix.

Definition loads (s : xml_str) (validate : bool) : outcome Element :=
  returning_tree (fromstring s) _remove_root_tag_prefix.

Definition dumps (validate pretty_print xml_declaration : bool) : Py xml_str :=
  _return_to_standard_xml;;
  s ← tostring pretty_print xml_declaration;
  _remove_root_tag_prefix;;
  mret s.

Definition pull_astro_coords : Py Coords :=
  v ← this;
  ww ← getattr v "WhereWhen";
  odl ← getattr ww "ObsDataLocation";
  ol ← getattr odl "ObservationLocation";
  ac ← getattr ol "AstroCoords";
  ww' ← getattr v "WhereWhen";
  odl' ← getattr ww' "ObsDataLocation";
  ol' ← getattr odl' "ObservationLocation";
  ac_sys ← getattr ol' "AstroCoordSystem";
  sys ← attrib_getitem ac_sys "id";
  '(ra_deg, dec_deg, err_deg) ←
    except_AttributeError
      (p1 ← getattr ac "Position2D";
       n1 ← getattr p1 "Name1";
       names_ok ←
         (if elem_eq_str n1 "RA"
          then p2 ← getattr ac "Position2D";
               n2 ← getattr p2 "Name2";
               mret (elem_eq_str n2 "Dec")
          else mret false);
       py_assert names_ok;;
       p3 ← getattr ac "Position2D";
       v3 ← getattr p3 "Value2";
       ra_deg ← getattr v3 "C1";
       p4 ← getattr ac "Position2D";
       v4 ← getattr p4 "Value2";
       dec_deg ← getattr v4 "C2";
       p5 ← getattr ac "Position2D";
       err_deg ← getattr p5 "Error2Radius";
       mret (ra_deg, dec_deg, err_deg))
      (raise (ValueError "Unrecognised AstroCoords type"));
  mret (mkCoords ra_deg dec_deg err_deg err_deg CoordUnits.degrees sys).

(** The [definitions] module is not part of the sources: the compiled schema
    and the skeleton document are taken as given. *)
Section Definitions.

(** [voevent_v2_0_schema]: what the compiled XMLSchema says of a tree, [None]
    when the tree is valid and otherwise the reason that [assertValid] puts
    in its DocumentInvalid. *)
Variable voevent_v2_0_schema : Element -> option string.

(** [definitions.v2_0_skeleton_str] *)
Variable v2_0_skeleton_str : xml_str.

(** [voevent_v2_0_schema.validate(v)] *)
Definition schema_validate : Py bool := fun v =>
  (Returns (bool_decide (voevent_v2_0_schema v = None)), v).

(** [voevent_v2_0_schema.assertValid(v)]: returns [None] or raises. *)
Definition schema_assertValid : Py unit := fun v =>
  match voevent_v2_0_schema v with
  | None => (Returns (), v)
  | Some reason => (Raises (DocumentInvalid reason), v)
  end.

Definition valid_as_v2_0 : Py bool :=
  _return_to_standard_xml;;
  valid_bool ← schema_validate;
  _remove_root_tag_prefix;;
  mret valid_bool.

Definition assert_valid_as_v2_0 : Py unit :=
  _return_to_standard_xml;;
  valid_bool ← schema_assertValid;
  _remove_root_tag_prefix;;
  mret valid_bool.

Definition make_voevent (ivorn role : string) (validate : bool)
  : outcome Element :=
  returning_tree (fromstring v2_0_skeleton_str)
    (_remove_root_tag_prefix;;
     attrib_setitem "ivorn" ("ivo://" +:+ ivorn);;
     attrib_setitem "role" role;;
     if validate then assert_valid_as_v2_0 else mret ()).

End Definitions.

(** [load(path)]: [open_rb] is the file system, IOError aside the file's
    bytes go to [loads]. *)
Definition load (open_rb : string -> outcome xml_str) (path : string)
  : outcome Element :=
  match open_rb path with
  | Returns s => loads s false
  | Raises e => Raises e
  end.

(** ** Vocabulary of the properties *)

Definition result {A} (m : Py A) (v : Element) : outcome A := fst (m v).
Definition tree_after {A} (m : Py A) (v : Element) : Element := snd (m v).

(** A bare name: no namespace part, that is no opening brace. *)
Definition bare_name (s : string) : bool := negb (PyStr.contains_char "{" s).

(** The root tag is the namespace bound to [voe], in braces, then a bare
    local name. *)
Definition prefixed_form (v : Element) : Prop :=
  exists U L, nsmap v !! Some "voe" = Some U /\ bare_name L = true /\
              tag v = ("{" +:+ U +:+ "}") +:+ L.

Definition stripped_form (v : Element) : Prop := bare_name (tag v) = true.

(** The tag that [_reinsert_root_tag_prefix] writes for namespace [U]. *)
Definition voevent_tag (U : string) : string := "{" +:+ U +:+ "}VOEvent".

(** The tree that [_return_to_standard_xml] leaves for namespace [U]. *)
Definition standard_xml (U : string) (v : Element) : Element :=
  with_tag (voevent_tag U) (deannotate_tree v).

(** The skeleton [t0] after the strip for namespace [U] and the two
    attribute assignments of [make_voevent]. *)
Definition stamp (U ivorn role : string) (t0 : Element) : Element :=
  with_attrib (<["role" := role]> (<["ivorn" := "ivo://" +:+ ivorn]> (attrib t0)))
              (with_tag (PyStr.replace (tag t0) ("{" +:+ U +:+ "}") "") t0).

Definition root_of (s : xml_str) : option Element :=
  match s with
  | Xml _ _ r => Some r
  | NotXml _ => None
  end.

(** The schema accepts the document that a byte string denotes. *)
Definition schema_valid (schema : Element -> option string) (s : xml_str)
  : Prop :=
  exists r, root_of s = Some r /\ schema r = None.

Definition WhereWhen_path : list string :=
  ["WhereWhen"; "ObsDataLocation"; "ObservationLocation"].

(** A computation that leaves the tree as it found it, whatever its
    outcome. *)
Definition read_only {A} (m : Py A) : Prop := forall v, tree_after m v = v.

Definition AstroCoords_path : list string := WhereWhen_path ++ ["AstroCoords"].
Definition AstroCoordSystem_path : list string :=
  WhereWhen_path ++ ["AstroCoordSystem"].

(** The axis names that the position node of [ac] carries are RA and Dec. *)
Definition axis_names_agree (ac : Element) : Prop :=
  forall p, lookup_child ac "Position2D" = Some p ->
    (forall n1, lookup_child p "Name1" = Some n1 -> elem_eq_str n1 "RA" = true)
    /\ (forall n2, lookup_child p "Name2" = Some n2 -> elem_eq_str n2 "Dec" = true).

(** One of the nodes read under [ac] is absent. *)
Definition position_incomplete (ac : Element) : Prop :=
  descend ac ["Position2D"; "Name1"] = None
  \/ descend ac ["Position2D"; "Name2"] = None
  \/ descend ac ["Position2D"; "Value2"; "C1"] = None
  \/ descend ac ["Position2D"; "Value2"; "C2"] = None
  \/ descend ac ["Position2D"; "Error2Radius"] = None.

(** ** Sample documents *)

Module Samples.

Definition VOE_NS : string := "http://www.ivoa.net/xml/VOEvent/v2.0".

Definition leaf (t x : string) : Element := mkElement t ∅ ∅ (Some x) [].
Definition node (t : string) (cs : list Element) : Element :=
  mkElement t ∅ ∅ None cs.

Definition packet_attrib : gmap string string :=
  {[ "ivorn" := "ivo://survey.example.org/ALERT#1";
     "role" := "observation"; "version" := "2.0" ]}.

(** [<Position2D>] with the two axis names, the two values and the radius. *)
Definition position2d (n1 n2 c1 c2 err : string) : Element :=
  node "Position2D"
    [leaf "Name1" n1; leaf "Name2" n2;
     node "Value2" [leaf "C1" c1; leaf "C2" c2];
     leaf "Error2Radius" err].

Definition where_when (sys : string) (pos : Element) : Element :=
  node "WhereWhen"
    [node "ObsDataLocation"
       [node "ObservationLocation"
          [mkElement "AstroCoordSystem" ∅ {[ "id" := sys ]} None [];
           node "AstroCoords" [pos]]]].

(** A loaded (stripped) packet with the given root name and children. *)
Definition loaded (root : string) (cs : list Element) : Element :=
  mkElement root {[ Some "voe" := VOE_NS ]} packet_attrib None cs.

(** A GCN-style packet in equatorial coordinates. *)
Definition gcn_packet : Element :=
  loaded "VOEvent"
    [where_when "UTC-FK5-GEO" (position2d "RA" "Dec" "123.4" "-56.7" "0.01")].

(** The same packet in galactic coordinates. *)
Definition galactic_packet : Element :=
  loaded "VOEvent"
    [where_when "UTC-GAL-GEO" (position2d "GLON" "GLAT" "10.0" "-1.5" "0.01")].

(** A packet whose AstroCoords holds no Position2D. *)
Definition no_position_packet : Element :=
  loaded "VOEvent"
    [where_when "UTC-FK5-GEO" (node "Position3D" [])].

(** A packet whose WhereWhen is empty. *)
Definition no_location_packet : Element :=
  loaded "VOEvent" [node "WhereWhen" []].

(** [<voe:VOEvent xmlns:voe=".../v2.0" ivorn=... role=... version="2.0"/>]
    as parsed: the root tag in Clark notation. *)
Definition parsed_packet : Element :=
  loaded ("{" +:+ VOE_NS +:+ "}VOEvent") [].

(** The same document written with the prefix [v] instead of [voe]:
    [<v:VOEvent xmlns:v=".../v2.0" ivorn=... role=... version="2.0"/>]. *)
Definition other_prefix_packet : Element :=
  mkElement ("{" +:+ VOE_NS +:+ "}VOEvent") {[ Some "v" := VOE_NS ]}
            packet_attrib None [].

(** [<voe:Foo xmlns:voe=".../v2.0" .../>] as parsed, and as loaded. *)
Definition parsed_foo : Element := loaded ("{" +:+ VOE_NS +:+ "}Foo") [].
Definition loaded_foo : Element := loaded "Foo" [].

(** A skeleton: an empty packet with blank identity attributes. *)
Definition skeleton : Element :=
  mkElement ("{" +:+ VOE_NS +:+ "}VOEvent") {[ Some "voe" := VOE_NS ]}
            {[ "ivorn" := ""; "role" := ""; "version" := "2.0" ]} None
            [node "Who" []; node "What" []; node "WhereWhen" []].

(** An identifier with a NUL byte in front, and a role that is the bell
    character. *)
Definition nul_ivorn : string := String "000" "survey.example.org/ALERT#1".
Definition bell_role : string := String "007" "".

(** A schema check that accepts every tree, and one that wants a [Who]. *)
Definition accept_all (v : Element) : option string := None.
Definition require_who (v : Element) : option string :=
  match find (fun c => bool_decide (tag c = "Who")) (children v) with
  | Some _ => None
  | None => Some "Element VOEvent: Missing child element(s). Expected is ( Who )."
  end.

End Samples.

(** ** Writing to a file *)

(** [dump(v, file, ...)], the open file being the list of what has been
    written to it: the argument [dumps(...)] is evaluated first, and
    [file.write] appends its value when it returned one. *)
Definition dump (validate pretty_print xml_declaration : bool)
    (v : Element) (file : list xml_str)
  : outcome unit * Element * list xml_str :=
  match dumps validate pretty_print xml_declaration v with
  | (Returns s, v') => (Returns (), v', (file ++ [s])%list)
  | (Raises e, v') => (Raises e, v', file)
  end.

(** ** Further vocabulary *)

(** The children of the root are in no namespace, as the VOEvent schema has
    them. *)
Definition unqualified_children (v : Element) : bool :=
  forallb (fun c => bare_name (tag c)) (children v).

Module MoreSamples.
Import Samples.

(** A loaded packet whose coordinate values carry objectify annotations. *)
Definition annotated_leaf (t x pytype : string) : Element :=
  mkElement t ∅ {[ PYTYPE_ATTRIBUTE := pytype ]} (Some x) [].

Definition annotated_packet : Element :=
  loaded "VOEvent"
    [where_when "UTC-FK5-GEO"
       (node "Position2D"
          [leaf "Name1" "RA"; leaf "Name2" "Dec";
           node "Value2" [annotated_leaf "C1" "123.4" "float";
                          annotated_leaf "C2" "-56.7" "float"];
           annotated_leaf "Error2Radius" "0.01" "float"])].

(** An annotated tree that does not bind [voe]. *)
Definition unbound_packet : Element :=
  mkElement "VOEvent" {[ Some "v" := VOE_NS ]} packet_attrib None
            [annotated_leaf "Description" "7" "int"].

(** The GCN packet as the validator sees it, in prefixed form. *)
Definition prefixed_gcn_packet : Element :=
  with_tag ("{" +:+ VOE_NS +:+ "}VOEvent") gcn_packet.

(** A packet whose first axis name is right and whose second is not. *)
Definition mixed_axes_packet : Element :=
  loaded "VOEvent"
    [where_when "UTC-FK5-GEO" (position2d "RA" "DEC" "123.4" "-56.7" "0.01")].

(** The skeleton stamped for the packet [a/b#1] in the role [test]. *)
Definition stamped_skeleton : Element :=
  with_attrib (<["role" := "test"]> (<["ivorn" := "ivo://a/b#1"]> (attrib skeleton)))
              (with_tag "VOEvent" skeleton).

End MoreSamples.

(** ** Python strings: facts about [replace] *)

Module PyStrFacts.
Import PyStr.

Lemma app_cons a p s : String a p +:+ s = String a (p +:+ s).
Proof. reflexivity. Qed.

Lemma app_empty s : "" +:+ s = s.
Proof. reflexivity. Qed.

Lemma append_assoc (a b c : string) : (a +:+ b) +:+ c = a +:+ b +:+ c.
Proof.
  induction a as [|x a IH]; [reflexivity|].
  rewrite !app_cons. by rewrite IH.
Qed.

Lemma startswith_app p s : startswith (p +:+ s) p = true.
Proof.
  induction p as [|a p IH]; [done|].
  rewrite app_cons. cbn [startswith]. by rewrite decide_True.
Qed.

Lemma startswith_inv p : forall s, startswith s p = true -> exists r, s = p +:+ r.
Proof.
  induction p as [|a p IH]; intros s H; cbn [startswith] in H.
  - by exists s.
  - destruct s as [|b s]; [done|].
    destruct (decide (a = b)) as [->|]; [|done].
    destruct (IH _ H) as [r ->]. by exists r.
Qed.

Lemma occurs_tail old c s : occurs old s -> occurs old (String c s).
Proof. intros (pre & post & ->). by exists (String c pre), post. Qed.

Lemma occurs_head old s : startswith s old = true -> occurs old s.
Proof. intros H. destruct (startswith_inv _ _ H) as [r ->]. by exists "", r. Qed.

Lemma replace_scan_skip old new a : forall b,
  replace_scan old new (String.length a) (a +:+ b) = replace_scan old new 0 b.
Proof.
  induction a as [|c a IH]; intros b.
  - by rewrite app_empty.
  - rewrite app_cons. cbn [String.length replace_scan]. apply IH.
Qed.

Lemma replace_scan_absent old new s :
  ~ occurs old s -> replace_scan old new 0 s = s.
Proof.
  intros Hno. induction s as [|c s IH]; [done|].
  cbn [replace_scan].
  destruct (startswith (String c s) old) eqn:E.
  - destruct Hno. by apply occurs_head.
  - f_equal. apply IH. intros Ho. apply Hno. by apply occurs_tail.
Qed.

(** A string that the pattern does not occur in is left as it is. *)
Lemma replace_absent s old new : ~ occurs old s -> replace s old new = s.
Proof.
  intros Hno. destruct old as [|a old].
  - destruct Hno. by exists "", s.
  - by apply replace_scan_absent.
Qed.

(** The pattern in front of a string it does not occur in is taken off. *)
Lemma replace_prefix a old rest :
  ~ occurs (String a old) rest ->
  replace (String a old +:+ rest) (String a old) "" = rest.
Proof.
  intros Hno. unfold replace.
  rewrite app_cons. cbn [replace_scan].
  rewrite <- app_cons, startswith_app.
  cbn [String.length]. rewrite Nat.sub_1_r. cbn [Nat.pred].
  rewrite app_empty, replace_scan_skip. by apply replace_scan_absent.
Qed.

Lemma contains_char_app c a b :
  contains_char c (a +:+ b) = contains_char c a || contains_char c b.
Proof.
  induction a as [|x a IH]; [done|].
  rewrite app_cons. cbn [contains_char].
  destruct (decide (c = x)); [done | exact IH].
Qed.

Lemma occurs_contains_char c old s :
  occurs (String c old) s -> contains_char c s = true.
Proof.
  intros (pre & post & ->).
  rewrite contains_char_app. apply orb_true_iff. right.
  rewrite app_cons. cbn [contains_char]. by rewrite decide_True.
Qed.

Lemma xml_compatible_app a b :
  xml_compatible (a +:+ b) = xml_compatible a && xml_compatible b.
Proof.
  induction a as [|c a IH]; [done|].
  rewrite app_cons. cbn [xml_compatible]. by rewrite IH, andb_assoc.
Qed.

(** A bare name holds no occurrence of a namespace in braces. *)
Lemma bare_name_absent U L :
  bare_name L = true -> ~ occurs ("{" +:+ U +:+ "}") L.
Proof.
  unfold bare_name. intros Hb Ho.
  apply occurs_contains_char in Ho. rewrite Ho in Hb. done.
Qed.

End PyStrFacts.

Import PyStrFacts.

(** ** Trees *)

Section Trees.

Lemma Element_tree_ind (P : Element -> Prop) :
  (forall t ns a x cs, Forall P cs -> P (mkElement t ns a x cs)) ->
  forall e, P e.
Proof.
  intros step. fix IH 1. intros [t ns a x cs]. apply step.
  induction cs as [|c cs IHcs]; constructor; [apply IH | exact IHcs].
Qed.

Lemma with_tag_same v : with_tag (tag v) v = v.
Proof. by destruct v. Qed.

Lemma with_tag_twice a b v : with_tag a (with_tag b v) = with_tag a v.
Proof. done. Qed.

Lemma tag_deannotate v : tag (deannotate_tree v) = tag v.
Proof. by destruct v. Qed.

Lemma nsmap_deannotate v : nsmap (deannotate_tree v) = nsmap v.
Proof. by destruct v. Qed.

Lemma deannotate_with_tag t v :
  deannotate_tree (with_tag t v) = with_tag t (deannotate_tree v).
Proof. by destruct v. Qed.

Lemma strip_annotations_lookup a k :
  k <> PYTYPE_ATTRIBUTE -> k <> XML_SCHEMA_INSTANCE_TYPE_ATTR ->
  strip_annotations a !! k = a !! k.
Proof.
  intros H1 H2. unfold strip_annotations.
  by rewrite !lookup_delete_ne.
Qed.

Lemma attrib_deannotate v k :
  k <> PYTYPE_ATTRIBUTE -> k <> XML_SCHEMA_INSTANCE_TYPE_ATTR ->
  attrib (deannotate_tree v) !! k = attrib v !! k.
Proof. destruct v. apply strip_annotations_lookup. Qed.

Lemma deannotate_free v : annotation_free v = true -> deannotate_tree v = v.
Proof.
  induction v as [t ns a x cs IH] using Element_tree_ind.
  cbn [annotation_free deannotate_tree]. intros H.
  apply andb_true_iff in H as [H Hcs]. apply andb_true_iff in H as [Hp Hx].
  apply bool_decide_eq_true in Hp, Hx.
  f_equal.
  - unfold strip_annotations. by rewrite (delete_id _ _ Hp), (delete_id _ _ Hx).
  - induction IH as [|c cs Hc _ IHcs]; [done|].
    cbn [forallb map] in *. apply andb_true_iff in Hcs as [Hc' Hcs].
    f_equal; [by apply Hc | by apply IHcs].
Qed.

End Trees.

(** ** Running the namespace normaliser *)

Ltac py_unfold :=
  unfold _remove_root_tag_prefix, _reinsert_root_tag_prefix,
    _return_to_standard_xml, deannotate, get_tag, set_tag, nsmap_getitem,
    tostring, raise, mbind, mret, Py_bind, Py_ret.

Lemma remove_bound v U :
  nsmap v !! Some "voe" = Some U ->
  _remove_root_tag_prefix v
  = (Returns (), with_tag (PyStr.replace (tag v) ("{" +:+ U +:+ "}") "") v).
Proof. intros H. py_unfold. by rewrite H. Qed.

Lemma remove_unbound v :
  nsmap v !! Some "voe" = None ->
  _remove_root_tag_prefix v = (Raises (KeyError "voe"), v).
Proof. intros H. py_unfold. by rewrite H. Qed.

Lemma reinsert_bound v U :
  nsmap v !! Some "voe" = Some U ->
  _reinsert_root_tag_prefix v = (Returns (), with_tag (voevent_tag U) v).
Proof. intros H. py_unfold. by rewrite H. Qed.

Lemma reinsert_unbound v :
  nsmap v !! Some "voe" = None ->
  _reinsert_root_tag_prefix v = (Raises (KeyError "voe"), v).
Proof. intros H. py_unfold. by rewrite H. Qed.

Lemma standard_bound v U :
  nsmap v !! Some "voe" = Some U ->
  _return_to_standard_xml v = (Returns (), standard_xml U v).
Proof.
  intros H. unfold _return_to_standard_xml, deannotate, mbind, Py_bind.
  rewrite (reinsert_bound (deannotate_tree v) U); [done|].
  by rewrite nsmap_deannotate.
Qed.

Lemma standard_unbound v :
  nsmap v !! Some "voe" = None ->
  _return_to_standard_xml v = (Raises (KeyError "voe"), deannotate_tree v).
Proof.
  intros H. unfold _return_to_standard_xml, deannotate, mbind, Py_bind.
  rewrite reinsert_unbound; [done|]. by rewrite nsmap_deannotate.
Qed.

Lemma voevent_tag_braced U : voevent_tag U = ("{" +:+ U +:+ "}") +:+ "VOEvent".
Proof.
  unfold voevent_tag. rewrite !append_assoc. reflexivity.
Qed.

(** Stripping a tag made of the bound namespace and a bare name leaves the
    bare name. *)
Lemma remove_prefixed v U L :
  nsmap v !! Some "voe" = Some U -> bare_name L = true ->
  tag v = ("{" +:+ U +:+ "}") +:+ L ->
  _remove_root_tag_prefix v = (Returns (), with_tag L v).
Proof.
  intros Hns HL Ht. rewrite (remove_bound v U Hns), Ht.
  rewrite (app_cons "{" "" (U +:+ "}")), app_empty.
  rewrite replace_prefix; [done|].
  by apply (bare_name_absent U L).
Qed.

Lemma remove_voevent v U :
  nsmap v !! Some "voe" = Some U -> tag v = voevent_tag U ->
  _remove_root_tag_prefix v = (Returns (), with_tag "VOEvent" v).
Proof.
  intros Hns Ht. apply (remove_prefixed v U); [done|done|].
  by rewrite Ht, voevent_tag_braced.
Qed.

(** A tag that does not hold the bound namespace in braces is left alone. *)
Lemma remove_absent v U :
  nsmap v !! Some "voe" = Some U ->
  ~ PyStr.occurs ("{" +:+ U +:+ "}") (tag v) ->
  _remove_root_tag_prefix v = (Returns (), v).
Proof.
  intros Hns Hno. rewrite (remove_bound v U Hns).
  rewrite replace_absent by done. by rewrite with_tag_same.
Qed.

Lemma dumps_bound v U validate pp decl :
  nsmap v !! Some "voe" = Some U ->
  dumps validate pp decl v
  = (Returns (Xml decl pp (standard_xml U v)),
     with_tag "VOEvent" (deannotate_tree v)).
Proof.
  intros H. unfold dumps, mbind, Py_bind.
  rewrite (standard_bound v U H). unfold tostring.
  rewrite (remove_voevent (standard_xml U v) U); [done| |done].
  by rewrite <- H, <- (nsmap_deannotate v).
Qed.

Lemma loads_prefixed t U L decl pp validate :
  nsmap t !! Some "voe" = Some U -> bare_name L = true ->
  tag t = ("{" +:+ U +:+ "}") +:+ L ->
  loads (Xml decl pp t) validate = Returns (with_tag L t).
Proof.
  intros Hns HL Ht. unfold loads, returning_tree, fromstring.
  by rewrite (remove_prefixed t U L).
Qed.

Lemma loads_voevent t U decl pp validate :
  nsmap t !! Some "voe" = Some U -> tag t = voevent_tag U ->
  loads (Xml decl pp t) validate = Returns (with_tag "VOEvent" t).
Proof.
  intros Hns Ht. apply (loads_prefixed t U); [done|done|].
  by rewrite Ht, voevent_tag_braced.
Qed.

Lemma with_tag_deannotate_same v :
  with_tag (tag v) (deannotate_tree v) = deannotate_tree v.
Proof. by rewrite <- (tag_deannotate v), with_tag_same. Qed.

Lemma standard_xml_nsmap U v : nsmap (standard_xml U v) = nsmap v.
Proof. by destruct v. Qed.

Lemma standard_xml_prefixed U v :
  nsmap v !! Some "voe" = Some U -> prefixed_form (standard_xml U v).
Proof.
  intros H. exists U, "VOEvent". rewrite standard_xml_nsmap.
  repeat split; [done|]. by rewrite <- voevent_tag_braced.
Qed.

(** Reinserting on a loaded VOEvent tree gives back the parsed tree, up to
    the annotations. *)
Lemma standard_xml_loaded U t :
  tag t = voevent_tag U ->
  standard_xml U (with_tag "VOEvent" t) = deannotate_tree t.
Proof.
  intros Ht. unfold standard_xml.
  rewrite deannotate_with_tag, with_tag_twice, <- Ht.
  apply with_tag_deannotate_same.
Qed.

Section Validation.

Variable schema : Element -> option string.

Lemma valid_bound v U :
  nsmap v !! Some "voe" = Some U ->
  valid_as_v2_0 schema v
  = (Returns (bool_decide (schema (standard_xml U v) = None)),
     with_tag "VOEvent" (deannotate_tree v)).
Proof.
  intros H. unfold valid_as_v2_0, mbind, Py_bind.
  rewrite (standard_bound v U H). unfold schema_validate.
  rewrite (remove_voevent (standard_xml U v) U); [done| |done].
  by rewrite standard_xml_nsmap.
Qed.

Lemma assert_valid_accepts v U :
  nsmap v !! Some "voe" = Some U ->
  schema (standard_xml U v) = None ->
  assert_valid_as_v2_0 schema v
  = (Returns (), with_tag "VOEvent" (deannotate_tree v)).
Proof.
  intros H Hok. unfold assert_valid_as_v2_0, mbind, Py_bind.
  rewrite (standard_bound v U H). unfold schema_assertValid. rewrite Hok.
  rewrite (remove_voevent (standard_xml U v) U); [done| |done].
  by rewrite standard_xml_nsmap.
Qed.

Lemma assert_valid_rejects v U reason :
  nsmap v !! Some "voe" = Some U ->
  schema (standard_xml U v) = Some reason ->
  assert_valid_as_v2_0 schema v
  = (Raises (DocumentInvalid reason), standard_xml U v).
Proof.
  intros H Hbad. unfold assert_valid_as_v2_0, mbind, Py_bind.
  rewrite (standard_bound v U H). unfold schema_assertValid. by rewrite Hbad.
Qed.

End Validation.

(** ** The namespace normaliser *)

Import Samples.

(** C7, as amended: for a tree whose root tag is the VOEvent tag of the
    namespace bound to [voe], stripping, reinserting and stripping again
    returns normally and leaves the tree that a single strip leaves, with
    root tag [VOEvent]. *)
Theorem toggle_stable_on_VOEvent v U :
  nsmap v !! Some "voe" = Some U ->
  tag v = voevent_tag U ->
  (_remove_root_tag_prefix;; _reinsert_root_tag_prefix;;
   _remove_root_tag_prefix) v = _remove_root_tag_prefix v
  /\ result _remove_root_tag_prefix v = Returns ()
  /\ tag (tree_after _remove_root_tag_prefix v) = "VOEvent".
Proof.
  intros Hns Ht. unfold result, tree_after.
  rewrite (remove_voevent v U Hns Ht).
  split; [|done].
  unfold mbind, Py_bind. rewrite (remove_voevent v U Hns Ht).
  rewrite (reinsert_bound (with_tag "VOEvent" v) U Hns).
  by rewrite (remove_voevent _ U).
Qed.

Lemma toggle_stable_on_VOEvent_witness :
  (_remove_root_tag_prefix;; _reinsert_root_tag_prefix;;
   _remove_root_tag_prefix) parsed_packet
  = _remove_root_tag_prefix parsed_packet
  /\ result _remove_root_tag_prefix parsed_packet = Returns ()
  /\ tag (tree_after _remove_root_tag_prefix parsed_packet) = "VOEvent".
Proof.
  apply (toggle_stable_on_VOEvent parsed_packet VOE_NS).
  - vm_compute. reflexivity.
  - reflexivity.
Defined.

(** C7 as stated fails: a tree in prefixed form whose root local name is
    not [VOEvent] comes out of strip, reinsert, strip with the root tag
    [VOEvent], and out of a single strip with its own local name. *)
Lemma toggle_renames_other_root :
  prefixed_form parsed_foo
  /\ tag (tree_after (_remove_root_tag_prefix;; _reinsert_root_tag_prefix;;
                      _remove_root_tag_prefix) parsed_foo) = "VOEvent"
  /\ tag (tree_after _remove_root_tag_prefix parsed_foo) = "Foo".
Proof.
  split; [|split; vm_compute; reflexivity].
  exists VOE_NS, "Foo". repeat split; vm_compute; reflexivity.
Qed.

(** C8, as amended: when the root tag does not hold the namespace bound to
    [voe] in braces, strip leaves the tree as it is; it raises KeyError for
    [voe] when the prefix is unbound (whatever the tag) and raises nothing
    when it is bound. *)
Theorem remove_prefix_undetected v :
  (forall U, nsmap v !! Some "voe" = Some U ->
             ~ PyStr.occurs ("{" +:+ U +:+ "}") (tag v)) ->
  _remove_root_tag_prefix v
  = (match nsmap v !! Some "voe" with
     | Some _ => Returns ()
     | None => Raises (KeyError "voe")
     end, v).
Proof.
  intros Hno. destruct (nsmap v !! Some "voe") as [U|] eqn:Hns.
  - by apply (remove_absent v U), Hno.
  - by apply remove_unbound.
Qed.

Lemma remove_prefix_undetected_witness :
  _remove_root_tag_prefix gcn_packet = (Returns (), gcn_packet).
Proof.
  apply (remove_prefix_undetected gcn_packet).
  intros U _. by apply bare_name_absent.
Defined.

(** C8 as stated fails: on a tree that is already stripped, strip raises
    nothing at all and hands the tree back. *)
Lemma remove_prefix_silent_on_stripped :
  ~ prefixed_form gcn_packet
  /\ _remove_root_tag_prefix gcn_packet = (Returns (), gcn_packet)
  /\ forall e, result _remove_root_tag_prefix gcn_packet <> Raises e.
Proof.
  split; [|split].
  - intros (U & L & _ & _ & Ht). rewrite !app_cons in Ht. discriminate Ht.
  - vm_compute. reflexivity.
  - intros e He. vm_compute in He. discriminate He.
Qed.

(** C9: when [voe] is bound to [U], reinsert writes exactly the tag
    [{U}VOEvent] whatever the root tag was, and the document that [dumps]
    serialises has that root tag; so a document whose root is [{U}L] is
    loaded with root tag [L] and serialised with root tag [{U}VOEvent]. *)
Theorem reinsert_hardcodes_VOEvent v U :
  nsmap v !! Some "voe" = Some U ->
  _reinsert_root_tag_prefix v
  = (Returns (), with_tag ("{" +:+ U +:+ "}VOEvent") v)
  /\ (forall validate pp decl, exists out,
        result (dumps validate pp decl) v = Returns (Xml decl pp out)
        /\ tag out = "{" +:+ U +:+ "}VOEvent")
  /\ (forall L validate validate' pp pp' decl decl',
        bare_name L = true -> tag v = ("{" +:+ U +:+ "}") +:+ L ->
        exists w out,
          loads (Xml decl pp v) validate = Returns w /\ tag w = L
          /\ result (dumps validate' pp' decl') w = Returns (Xml decl' pp' out)
          /\ tag out = "{" +:+ U +:+ "}VOEvent").
Proof.
  intros Hns. split; [by apply reinsert_bound|]. split.
  - intros validate pp decl. exists (standard_xml U v).
    unfold result. by rewrite (dumps_bound v U).
  - intros L validate validate' pp pp' decl decl' HL Ht.
    exists (with_tag L v), (standard_xml U (with_tag L v)).
    split; [by apply (loads_prefixed v U)|]. split; [done|].
    unfold result. by rewrite (dumps_bound (with_tag L v) U).
Qed.

Lemma reinsert_hardcodes_VOEvent_witness :
  _reinsert_root_tag_prefix loaded_foo
  = (Returns (), with_tag ("{" +:+ VOE_NS +:+ "}VOEvent") loaded_foo)
  /\ exists w out,
       loads (Xml true true parsed_foo) false = Returns w /\ tag w = "Foo"
       /\ result (dumps false true true) w = Returns (Xml true true out)
       /\ tag out = "{" +:+ VOE_NS +:+ "}VOEvent".
Proof.
  split.
  - apply (reinsert_hardcodes_VOEvent loaded_foo VOE_NS).
    vm_compute. reflexivity.
  - apply (proj2 (proj2 (reinsert_hardcodes_VOEvent parsed_foo VOE_NS
                           ltac:(vm_compute; reflexivity)))
             "Foo" false false true true true true); reflexivity.
Defined.

(** ** The validator *)

(** C5: [assert_valid_as_v2_0] raises DocumentInvalid with the schema's
    reason exactly when the tree has a standard form, [voe] being bound to
    some [U], and the schema rejects it; when the schema accepts, the call
    returns with the root tag stripped to [VOEvent]; when it rejects, the
    tree is left in standard form, root tag [{U}VOEvent], the strip
    skipped. *)
Theorem assert_valid_as_v2_0_paths schema v :
  (forall reason,
     result (assert_valid_as_v2_0 schema) v = Raises (DocumentInvalid reason)
     <-> exists U, nsmap v !! Some "voe" = Some U
                   /\ schema (standard_xml U v) = Some reason)
  /\ (forall U, nsmap v !! Some "voe" = Some U ->
      schema (standard_xml U v) = None ->
      assert_valid_as_v2_0 schema v
      = (Returns (), with_tag "VOEvent" (deannotate_tree v)))
  /\ (forall U reason, nsmap v !! Some "voe" = Some U ->
      schema (standard_xml U v) = Some reason ->
      tree_after (assert_valid_as_v2_0 schema) v = standard_xml U v
      /\ tag (standard_xml U v) = "{" +:+ U +:+ "}VOEvent"
      /\ prefixed_form (standard_xml U v)).
Proof.
  split; [|split].
  - intros reason. unfold result.
    destruct (nsmap v !! Some "voe") as [U|] eqn:Hns.
    + destruct (schema (standard_xml U v)) as [r|] eqn:Hs.
      * rewrite (assert_valid_rejects schema v U r Hns Hs). cbn [fst].
        split; [intros [= ->]; by exists U|].
        intros (U' & [= <-] & Hr). congruence.
      * rewrite (assert_valid_accepts schema v U Hns Hs). cbn [fst].
        split; [discriminate|]. intros (U' & [= <-] & Hr). congruence.
    + unfold assert_valid_as_v2_0, mbind, Py_bind.
      rewrite (standard_unbound v Hns). cbn [fst].
      split; [discriminate|]. by intros (U' & ? & _).
  - intros U. by apply assert_valid_accepts.
  - intros U reason Hns Hs. unfold tree_after.
    rewrite (assert_valid_rejects schema v U reason Hns Hs).
    repeat split. by apply standard_xml_prefixed.
Qed.

Lemma assert_valid_as_v2_0_paths_witness :
  result (assert_valid_as_v2_0 require_who) gcn_packet
  = Raises (DocumentInvalid
      "Element VOEvent: Missing child element(s). Expected is ( Who ).")
  /\ tag (tree_after (assert_valid_as_v2_0 require_who) gcn_packet)
     = "{" +:+ VOE_NS +:+ "}VOEvent"
  /\ assert_valid_as_v2_0 accept_all gcn_packet
     = (Returns (), with_tag "VOEvent" (deannotate_tree gcn_packet)).
Proof.
  destruct (assert_valid_as_v2_0_paths require_who gcn_packet)
    as (Hiff & _ & Hbad).
  split; [|split].
  - apply Hiff. exists VOE_NS. split; vm_compute; reflexivity.
  - destruct (Hbad VOE_NS
        "Element VOEvent: Missing child element(s). Expected is ( Who ).")
      as (-> & Ht & _); [vm_compute; reflexivity .. | exact Ht].
  - apply (proj1 (proj2 (assert_valid_as_v2_0_paths accept_all gcn_packet))
             VOE_NS); vm_compute; reflexivity.
Defined.

(** ** The codec *)




(** C1, as amended: for a document [d] whose root is [{U}VOEvent], [U] the
    namespace bound to [voe], [dumps (loads d)] returns the serialisation of
    the tree of [d] with the annotation attributes removed; when [d] carries
    no annotation attribute this is the document [d] itself up to
    formatting, schema-valid when [d] is. *)
Theorem dumps_loads_round_trip schema d t U validate validate' pp decl :
  root_of d = Some t ->
  nsmap t !! Some "voe" = Some U -> tag t = voevent_tag U ->
  exists v out,
    loads d validate = Returns v
    /\ result (dumps validate' pp decl) v = Returns out
    /\ out = Xml decl pp (deannotate_tree t)
    /\ (annotation_free t = true ->
        same_document out d
        /\ (schema_valid schema d -> schema_valid schema out)).
Proof.
  intros Hd Hns Ht. destruct d as [raw|decl0 pp0 t']; [done|].
  cbn [root_of] in Hd. injection Hd as ->.
  exists (with_tag "VOEvent" t), (Xml decl pp (deannotate_tree t)).
  split; [by apply (loads_voevent t U)|].
  split.
  - unfold result. rewrite (dumps_bound _ U); [|done]. cbn [fst].
    by rewrite (standard_xml_loaded U t Ht).
  - split; [done|]. intros Hfree. rewrite (deannotate_free t Hfree).
    split; [done|]. intros (r & Hr & Hok). exists r. by split.
Qed.

Lemma dumps_loads_round_trip_witness :
  exists v out,
    loads (Xml true false parsed_packet) false = Returns v
    /\ result (dumps false true true) v = Returns out
    /\ out = Xml true true (deannotate_tree parsed_packet)
    /\ (annotation_free parsed_packet = true ->
        same_document out (Xml true false parsed_packet)
        /\ (schema_valid accept_all (Xml true false parsed_packet) ->
            schema_valid accept_all out)).
Proof.
  apply (dumps_loads_round_trip accept_all (Xml true false parsed_packet)
           parsed_packet VOE_NS).
  - reflexivity.
  - vm_compute. reflexivity.
  - reflexivity.
Defined.

(** C1 as stated fails: the packet written with the prefix [v] is a
    well-formed VOEvent document, root [{...VOEvent/v2.0}VOEvent] with its
    identity attributes, and [loads] raises KeyError for [voe] on it, so
    nothing is ever serialised. *)
Lemma loads_rejects_other_prefix :
  tag other_prefix_packet = voevent_tag VOE_NS
  /\ attrib other_prefix_packet = attrib parsed_packet
  /\ children other_prefix_packet = children parsed_packet
  /\ loads (Xml true true other_prefix_packet) false = Raises (KeyError "voe").
Proof. repeat split; vm_compute; reflexivity. Qed.

(** ** The packet builder *)

(** The skeleton after the strip and the two attribute assignments. *)
Lemma make_voevent_run schema skel t0 U ivorn role validate :
  root_of skel = Some t0 ->
  nsmap t0 !! Some "voe" = Some U ->
  let stamped :=
    with_attrib (<["role" := role]> (<["ivorn" := "ivo://" +:+ ivorn]> (attrib t0)))
                (with_tag (PyStr.replace (tag t0) ("{" +:+ U +:+ "}") "") t0) in
  make_voevent schema skel ivorn role validate
  = if PyStr.xml_compatible ivorn && PyStr.xml_compatible role
    then if validate
         then match schema (standard_xml U stamped) with
              | None => Returns (with_tag "VOEvent" (deannotate_tree stamped))
              | Some reason => Raises (DocumentInvalid reason)
              end
         else Returns stamped
    else Raises (ValueError XML_COMPATIBLE_MESSAGE).
Proof.
  intros Hskel Hns stamped. destruct skel as [raw|decl pp t']; [done|].
  cbn [root_of] in Hskel. injection Hskel as ->.
  unfold make_voevent, returning_tree, fromstring, mbind, Py_bind.
  rewrite (remove_bound t0 U Hns). unfold attrib_setitem.
  rewrite xml_compatible_app.
  change (PyStr.xml_compatible "ivorn") with true.
  change (PyStr.xml_compatible "ivo://") with true.
  change (PyStr.xml_compatible "role") with true.
  cbn [andb].
  destruct (PyStr.xml_compatible ivorn); cbn [andb]; [|done].
  destruct (PyStr.xml_compatible role); [|done].
  destruct validate; [|done].
  change (assert_valid_as_v2_0 schema _)
    with (assert_valid_as_v2_0 schema stamped).
  assert (Hst : nsmap stamped !! Some "voe" = Some U) by done.
  destruct (schema (standard_xml U stamped)) as [reason|] eqn:Hs.
  - by rewrite (assert_valid_rejects schema stamped U reason Hst Hs).
  - by rewrite (assert_valid_accepts schema stamped U Hst Hs).
Qed.

(** C4, as amended: with a skeleton that binds [voe], an ivorn and a role
    that hold only bytes lxml takes, and, when validation is asked for, a
    schema that accepts the stamped skeleton, [make_voevent] returns a tree
    whose [ivorn] attribute is ["ivo://"] followed by the given ivorn and
    whose [role] attribute is the given role. *)
Theorem make_voevent_stamps_identity schema skel t0 U ivorn role validate :
  root_of skel = Some t0 ->
  nsmap t0 !! Some "voe" = Some U ->
  PyStr.xml_compatible ivorn = true ->
  PyStr.xml_compatible role = true ->
  (validate = true -> schema (standard_xml U (stamp U ivorn role t0)) = None) ->
  exists v, make_voevent schema skel ivorn role validate = Returns v
            /\ attrib v !! "ivorn" = Some ("ivo://" +:+ ivorn)
            /\ attrib v !! "role" = Some role.
Proof.
  intros Hskel Hns Hivorn Hrole Hschema.
  rewrite (make_voevent_run schema skel t0 U ivorn role validate Hskel Hns).
  cbv zeta. rewrite Hivorn, Hrole. cbn [andb].
  fold (stamp U ivorn role t0).
  assert (Hi : attrib (stamp U ivorn role t0) !! "ivorn"
               = Some ("ivo://" +:+ ivorn)).
  { unfold stamp. cbn [attrib with_attrib].
    rewrite lookup_insert_ne by done. apply lookup_insert_eq. }
  assert (Hr : attrib (stamp U ivorn role t0) !! "role" = Some role).
  { unfold stamp. cbn [attrib with_attrib]. apply lookup_insert_eq. }
  destruct validate.
  - rewrite (Hschema eq_refl). eexists. split; [done|].
    change (attrib (with_tag "VOEvent" (deannotate_tree (stamp U ivorn role t0))))
      with (attrib (deannotate_tree (stamp U ivorn role t0))).
    by rewrite !attrib_deannotate.
  - by exists (stamp U ivorn role t0).
Qed.

Lemma make_voevent_stamps_identity_witness :
  exists v,
    make_voevent require_who (Xml true true skeleton)
                 "survey.example.org/ALERT#1" "observation" true = Returns v
    /\ attrib v !! "ivorn" = Some "ivo://survey.example.org/ALERT#1"
    /\ attrib v !! "role" = Some "observation".
Proof.
  apply (make_voevent_stamps_identity require_who (Xml true true skeleton)
           skeleton VOE_NS "survey.example.org/ALERT#1" "observation" true).
  - reflexivity.
  - vm_compute. reflexivity.
  - vm_compute. reflexivity.
  - vm_compute. reflexivity.
  - intros _. vm_compute. reflexivity.
Defined.

(** C4 as stated fails: an ivorn that holds a NUL byte, or a role that
    holds a control character, makes the attribute assignment raise
    ValueError, with or without validation and whatever the schema accepts;
    and with validation a packet that the schema rejects, here a skeleton
    without the [Who] that the schema wants, ends in DocumentInvalid.  No
    tree is returned. *)
Lemma make_voevent_raises_instead :
  make_voevent accept_all (Xml true true skeleton) nul_ivorn "observation" true
  = Raises (ValueError XML_COMPATIBLE_MESSAGE)
  /\ make_voevent accept_all (Xml true true skeleton)
                  "survey.example.org/ALERT#1" bell_role false
     = Raises (ValueError XML_COMPATIBLE_MESSAGE)
  /\ make_voevent require_who (Xml true true parsed_packet)
                  "survey.example.org/ALERT#1" "observation" true
     = Raises (DocumentInvalid
         "Element VOEvent: Missing child element(s). Expected is ( Who ).").
Proof. repeat split; vm_compute; reflexivity. Qed.

(** ** The coordinate extractor *)

Section ReadOnly.

Lemma read_only_ret {A} (a : A) : read_only (mret a).
Proof. by intros v. Qed.

Lemma read_only_raise {A} e : read_only (@raise A e).
Proof. by intros v. Qed.

Lemma read_only_this : read_only this.
Proof. by intros v. Qed.

Lemma read_only_getattr e name : read_only (getattr e name).
Proof. intros v. unfold getattr. by destruct (lookup_child e name). Qed.

Lemma read_only_attrib_getitem e k : read_only (attrib_getitem e k).
Proof. intros v. unfold attrib_getitem. by destruct (attrib e !! k). Qed.

Lemma read_only_assert b : read_only (py_assert b).
Proof. intros v. by destruct b. Qed.

Lemma read_only_bind {A B} (m : Py A) (f : A -> Py B) :
  read_only m -> (forall a, read_only (f a)) -> read_only (m ≫= f).
Proof.
  intros Hm Hf v. unfold tree_after, mbind, Py_bind.
  specialize (Hm v). unfold tree_after in Hm.
  destruct (m v) as [[a|e] v']; cbn [snd] in Hm; subst v'; [apply Hf | done].
Qed.

Lemma read_only_except {A} (body handler : Py A) :
  read_only body -> read_only handler ->
  read_only (except_AttributeError body handler).
Proof.
  intros Hb Hh v. unfold tree_after, except_AttributeError.
  specialize (Hb v). unfold tree_after in Hb.
  destruct (body v) as [[a|e] v']; cbn [snd] in Hb; subst v'; [done|].
  destruct e; try done. apply Hh.
Qed.

End ReadOnly.

Create HintDb read_only.
#[local] Hint Resolve read_only_ret read_only_raise read_only_this
  read_only_getattr read_only_attrib_getitem read_only_assert : read_only.

Ltac read_only_step :=
  match goal with
  | |- read_only (_ ≫= _) => apply read_only_bind; [|intros ?]
  | |- read_only (except_AttributeError _ _) => apply read_only_except
  | |- read_only (if ?b then _ else _) => destruct b
  | |- read_only (let '(_, _) := ?x in _) => destruct x
  | |- read_only _ => solve [auto with read_only]
  end.

Lemma pull_astro_coords_read_only : read_only pull_astro_coords.
Proof. unfold pull_astro_coords. repeat read_only_step. Qed.

(** Following a path hypothesis one lookup at a time. *)
Ltac open_path H :=
  unfold AstroCoords_path, AstroCoordSystem_path, WhereWhen_path in H;
  cbn [app descend] in H;
  repeat
    (match type of H with
     | context [lookup_child ?e ?n] =>
         match goal with
         | E : lookup_child e n = _ |- _ => rewrite E in H
         | _ => let E := fresh "E" in
                destruct (lookup_child e n) eqn:E; [|discriminate H]
         end
     end; cbn [descend] in H);
  try (injection H as H; subst).

(** Running the extractor along the lookups that are known. *)
Ltac run_lookups :=
  repeat
    (match goal with
     | E : lookup_child ?e ?n = _ |- context [lookup_child ?e ?n] => rewrite E
     | E : attrib ?e !! ?k = _ |- context [attrib ?e !! ?k] => rewrite E
     | E : elem_eq_str ?e ?s = _ |- context [elem_eq_str ?e ?s] => rewrite E
     end; cbv beta iota).

Ltac unfold_pull :=
  unfold pull_astro_coords, this, getattr, attrib_getitem,
    except_AttributeError, py_assert, raise, mbind, mret, Py_bind, Py_ret;
  cbv beta iota.

(** C2: when the path WhereWhen, ObsDataLocation, ObservationLocation leads
    to an AstroCoordSystem with [id] attribute [sys] and to an AstroCoords
    whose Position2D has Name1 equal to RA, Name2 equal to Dec, the values
    [r] and [d] under Value2 and the error radius [e], the extractor returns
    the record (ra = r, dec = d, ra_err = e, dec_err = e, units = degrees,
    system = sys): the one radius serves for both errors. *)
Theorem pull_astro_coords_equatorial v acs sys p n1 n2 r d e :
  descend v AstroCoordSystem_path = Some acs ->
  attrib acs !! "id" = Some sys ->
  descend v (AstroCoords_path ++ ["Position2D"]) = Some p ->
  lookup_child p "Name1" = Some n1 -> elem_eq_str n1 "RA" = true ->
  lookup_child p "Name2" = Some n2 -> elem_eq_str n2 "Dec" = true ->
  descend p ["Value2"; "C1"] = Some r ->
  descend p ["Value2"; "C2"] = Some d ->
  lookup_child p "Error2Radius" = Some e ->
  pull_astro_coords v = (Returns (mkCoords r d e e "degrees" sys), v).
Proof.
  intros Hsys Hid Hpos Hn1 Hra Hn2 Hdec Hr Hd He.
  open_path Hsys. open_path Hpos. open_path Hr. open_path Hd.
  unfold_pull. run_lookups. reflexivity.
Qed.

Lemma pull_astro_coords_equatorial_witness :
  pull_astro_coords gcn_packet
  = (Returns (mkCoords (leaf "C1" "123.4") (leaf "C2" "-56.7")
                       (leaf "Error2Radius" "0.01") (leaf "Error2Radius" "0.01")
                       "degrees" "UTC-FK5-GEO"),
     gcn_packet).
Proof.
  apply (pull_astro_coords_equatorial gcn_packet
           (mkElement "AstroCoordSystem" ∅ {[ "id" := "UTC-FK5-GEO" ]} None [])
           "UTC-FK5-GEO"
           (position2d "RA" "Dec" "123.4" "-56.7" "0.01")
           (leaf "Name1" "RA") (leaf "Name2" "Dec"));
    vm_compute; reflexivity.
Defined.

(** C3, as amended: the extractor raises AttributeError when the path to
    AstroCoords or to AstroCoordSystem is absent, and KeyError when the
    AstroCoordSystem has no [id]; when both are there, the axis names that
    are present are RA and Dec, and one of Position2D, Name1, Name2, Value2,
    C1, C2, Error2Radius is absent, it raises ValueError "Unrecognised
    AstroCoords type".  The tree is untouched in each case. *)
Theorem pull_astro_coords_failures v :
  (descend v AstroCoords_path = None \/ descend v AstroCoordSystem_path = None ->
   exists name, pull_astro_coords v = (Raises (AttributeError name), v))
  /\ (forall ac acs,
        descend v AstroCoords_path = Some ac ->
        descend v AstroCoordSystem_path = Some acs ->
        attrib acs !! "id" = None ->
        pull_astro_coords v = (Raises (KeyError "id"), v))
  /\ (forall ac acs sys,
        descend v AstroCoords_path = Some ac ->
        descend v AstroCoordSystem_path = Some acs ->
        attrib acs !! "id" = Some sys ->
        axis_names_agree ac -> position_incomplete ac ->
        pull_astro_coords v
        = (Raises (ValueError "Unrecognised AstroCoords type"), v)).
Proof.
  split; [|split].
  - unfold AstroCoords_path, AstroCoordSystem_path, WhereWhen_path.
    cbn [app descend]. intros H. unfold_pull.
    destruct (lookup_child v "WhereWhen") as [ww|] eqn:E1;
      cbv beta iota; [|by eexists].
    destruct (lookup_child ww "ObsDataLocation") as [odl|] eqn:E2;
      cbv beta iota; [|by eexists].
    destruct (lookup_child odl "ObservationLocation") as [ol|] eqn:E3;
      cbv beta iota; [|by eexists].
    destruct (lookup_child ol "AstroCoords") as [ac|] eqn:E4;
      cbv beta iota; [|by eexists].
    run_lookups.
    destruct (lookup_child ol "AstroCoordSystem") as [acs|] eqn:E5;
      cbv beta iota; [|by eexists].
    by destruct H.
  - intros ac acs Hac Hsys Hid. open_path Hac. open_path Hsys.
    unfold_pull. run_lookups. reflexivity.
  - intros ac acs sys Hac Hsys Hid Hnames Hinc. open_path Hac. open_path Hsys.
    unfold_pull. run_lookups.
    unfold position_incomplete in Hinc. cbn [descend] in Hinc.
    destruct (lookup_child ac "Position2D") as [p|] eqn:Ep;
      cbv beta iota; [|done].
    destruct (Hnames p Ep) as [Hra Hdec].
    destruct (lookup_child p "Name1") as [n1|] eqn:En1;
      cbv beta iota; [|done].
    rewrite (Hra n1 eq_refl); cbv beta iota.
    destruct (lookup_child p "Name2") as [n2|] eqn:En2;
      cbv beta iota; [|done].
    rewrite (Hdec n2 eq_refl); cbv beta iota.
    destruct (lookup_child p "Value2") as [v2|] eqn:Ev2;
      cbv beta iota; [|done].
    destruct (lookup_child v2 "C1") as [c1|] eqn:Ec1;
      cbv beta iota; [|done].
    destruct (lookup_child v2 "C2") as [c2|] eqn:Ec2;
      cbv beta iota; [|done].
    destruct (lookup_child p "Error2Radius") as [er|] eqn:Eer;
      cbv beta iota; [|done].
    by destruct Hinc as [?|[?|[?|[?|?]]]].
Qed.

Lemma pull_astro_coords_failures_witness :
  (exists name,
     pull_astro_coords no_location_packet
     = (Raises (AttributeError name), no_location_packet))
  /\ pull_astro_coords no_position_packet
     = (Raises (ValueError "Unrecognised AstroCoords type"), no_position_packet).
Proof.
  split.
  - apply (pull_astro_coords_failures no_location_packet).
    left. vm_compute. reflexivity.
  - apply (proj2 (proj2 (pull_astro_coords_failures no_position_packet))
             (node "AstroCoords" [node "Position3D" []])
             (mkElement "AstroCoordSystem" ∅ {[ "id" := "UTC-FK5-GEO" ]} None [])
             "UTC-FK5-GEO").
    + vm_compute. reflexivity.
    + vm_compute. reflexivity.
    + vm_compute. reflexivity.
    + intros p Hp. vm_compute in Hp. discriminate Hp.
    + left. vm_compute. reflexivity.
Defined.

(** C3 as stated fails: a packet whose WhereWhen is empty makes the
    extractor raise AttributeError, and a packet in galactic coordinates,
    axes GLON and GLAT, makes it raise AssertionError; neither is the
    ValueError. *)
Lemma pull_astro_coords_untyped_failures :
  result pull_astro_coords no_location_packet
  = Raises (AttributeError "ObsDataLocation")
  /\ result pull_astro_coords galactic_packet = Raises AssertionError
  /\ forall msg,
       result pull_astro_coords no_location_packet <> Raises (ValueError msg)
       /\ result pull_astro_coords galactic_packet <> Raises (ValueError msg).
Proof.
  split; [vm_compute; reflexivity|]. split; [vm_compute; reflexivity|].
  intros msg. split; intros H; vm_compute in H; discriminate H.
Qed.

(** C10: the extractor leaves the tree exactly as it found it, whether it
    returns or raises, while [dumps], [valid_as_v2_0] and
    [assert_valid_as_v2_0] write the root tag: each of them leaves a loaded
    tree whose root is not named VOEvent changed. *)
Theorem pull_astro_coords_frame :
  (forall v, pull_astro_coords v = (result pull_astro_coords v, v))
  /\ tree_after (dumps false true true) loaded_foo <> loaded_foo
  /\ (forall schema, tree_after (valid_as_v2_0 schema) loaded_foo <> loaded_foo)
  /\ (forall schema,
        tree_after (assert_valid_as_v2_0 schema) loaded_foo <> loaded_foo).
Proof.
  assert (Hns : nsmap loaded_foo !! Some "voe" = Some VOE_NS)
    by (vm_compute; reflexivity).
  assert (Htag : forall w, tag w <> "Foo" -> w <> loaded_foo)
    by (intros w Hw ->; by apply Hw).
  split; [|split; [|split]].
  - intros v. pose proof (pull_astro_coords_read_only v) as H.
    unfold tree_after, result in *.
    destruct (pull_astro_coords v) as [o v']. cbn [fst snd] in *. by subst.
  - unfold tree_after. rewrite (dumps_bound _ VOE_NS) by exact Hns.
    by apply Htag.
  - intros schema. unfold tree_after.
    rewrite (valid_bound schema _ VOE_NS) by exact Hns. by apply Htag.
  - intros schema. unfold tree_after.
    destruct (schema (standard_xml VOE_NS loaded_foo)) as [reason|] eqn:Hs.
    + rewrite (assert_valid_rejects schema _ VOE_NS reason Hns Hs).
      apply Htag. vm_compute. discriminate.
    + rewrite (assert_valid_accepts schema _ VOE_NS Hns Hs). by apply Htag.
Qed.

(** ** Further facts about trees *)

Section MoreTrees.


Lemma children_deannotate v :
  children (deannotate_tree v) = map deannotate_tree (children v).
Proof. by destruct v. Qed.

Lemma annotation_free_deannotate v : annotation_free (deannotate_tree v) = true.
Proof.
  induction v as [t ns a x cs IH] using Element_tree_ind.
  cbn [deannotate_tree annotation_free].
  apply andb_true_iff. split; [apply andb_true_iff; split|].
  - apply bool_decide_eq_true. unfold strip_annotations.
    rewrite lookup_delete_ne by done. apply lookup_delete_eq.
  - apply bool_decide_eq_true. apply lookup_delete_eq.
  - induction IH as [|c cs Hc _ IHcs]; [done|].
    cbn [map forallb]. by rewrite Hc, IHcs.
Qed.

Lemma deannotate_idem v :
  deannotate_tree (deannotate_tree v) = deannotate_tree v.
Proof. apply deannotate_free, annotation_free_deannotate. Qed.

Lemma standard_xml_idem U t v :
  standard_xml U (with_tag t (deannotate_tree v)) = standard_xml U v.
Proof.
  unfold standard_xml.
  by rewrite deannotate_with_tag, deannotate_idem, with_tag_twice.
Qed.

Lemma standard_xml_twice U v :
  standard_xml U (standard_xml U v) = standard_xml U v.
Proof. apply standard_xml_idem. Qed.

Lemma with_tag_deannotate_standard t U v :
  with_tag t (deannotate_tree (standard_xml U v)) = with_tag t (deannotate_tree v).
Proof.
  unfold standard_xml.
  by rewrite deannotate_with_tag, deannotate_idem, with_tag_twice.
Qed.

Lemma lookup_child_with_tag t v n :
  tag_namespace t = tag_namespace (tag v) ->
  lookup_child (with_tag t v) n = lookup_child v n.
Proof. intros H. unfold lookup_child. cbn [with_tag tag children]. by rewrite H. Qed.

Lemma through_brace_closed U rest :
  exists u, through_brace (U +:+ String "}" rest) = Some u.
Proof.
  induction U as [|c U [u IH]].
  - exists "}". rewrite app_empty. cbn [through_brace]. by rewrite decide_True.
  - rewrite app_cons. cbn [through_brace]. destruct (decide (c = "}"%char)).
    + by eexists.
    + rewrite IH. by eexists.
Qed.

Lemma tag_namespace_bare t : bare_name t = true -> tag_namespace t = "".
Proof.
  unfold bare_name. destruct t as [|c t]; [done|].
  cbn [PyStr.contains_char tag_namespace].
  destruct (decide ("{"%char = c)) as [<-|]; [done|].
  intros _. by rewrite decide_False.
Qed.

(** The children looked up under a namespace-qualified root carry that
    namespace, so unqualified children are not found. *)
Lemma lookup_child_qualified v U n :
  tag v = voevent_tag U -> unqualified_children v = true ->
  lookup_child v n = None.
Proof.
  intros Ht Hq. unfold lookup_child. rewrite Ht. unfold voevent_tag.
  rewrite app_cons, app_empty. cbn [tag_namespace]. rewrite decide_True by done.
  destruct (through_brace_closed U "VOEvent") as [u ->].
  unfold unqualified_children in Hq.
  induction (children v) as [|c cs IH]; [done|].
  cbn [forallb find] in *. apply andb_true_iff in Hq as [Hc Hcs].
  rewrite bool_decide_eq_false_2; [by apply IH|].
  intros Htag. rewrite Htag, app_cons in Hc. unfold bare_name in Hc.
  cbn [PyStr.contains_char] in Hc. by rewrite decide_True in Hc.
Qed.

End MoreTrees.

Section Unbound.

Variable schema : Element -> option string.

Lemma dumps_unbound v validate pp decl :
  nsmap v !! Some "voe" = None ->
  dumps validate pp decl v = (Raises (KeyError "voe"), deannotate_tree v).
Proof.
  intros Hns. unfold dumps, mbind, Py_bind. by rewrite (standard_unbound v Hns).
Qed.

Lemma valid_unbound v :
  nsmap v !! Some "voe" = None ->
  valid_as_v2_0 schema v = (Raises (KeyError "voe"), deannotate_tree v).
Proof.
  intros Hns. unfold valid_as_v2_0, mbind, Py_bind.
  by rewrite (standard_unbound v Hns).
Qed.

Lemma assert_valid_unbound v :
  nsmap v !! Some "voe" = None ->
  assert_valid_as_v2_0 schema v = (Raises (KeyError "voe"), deannotate_tree v).
Proof.
  intros Hns. unfold assert_valid_as_v2_0, mbind, Py_bind.
  by rewrite (standard_unbound v Hns).
Qed.

End Unbound.

(** ** Further properties: the namespace normaliser *)

Import MoreSamples.

(** X1: on a tree that binds [voe] to [U], reinsert undoes strip when the
    root tag is [{U}VOEvent], and strip undoes reinsert when the root tag is
    [VOEvent]: either pair returns normally and hands the tree back as it
    was. *)
Theorem remove_reinsert_inverse v U :
  nsmap v !! Some "voe" = Some U ->
  (tag v = voevent_tag U ->
   (_remove_root_tag_prefix;; _reinsert_root_tag_prefix) v = (Returns (), v))
  /\ (tag v = "VOEvent" ->
      (_reinsert_root_tag_prefix;; _remove_root_tag_prefix) v = (Returns (), v)).
Proof.
  intros Hns. split; intros Ht; unfold mbind, Py_bind.
  - rewrite (remove_voevent v U Hns Ht).
    rewrite (reinsert_bound (with_tag "VOEvent" v) U Hns).
    by rewrite with_tag_twice, <- Ht, with_tag_same.
  - rewrite (reinsert_bound v U Hns).
    rewrite (remove_voevent (with_tag (voevent_tag U) v) U Hns eq_refl).
    by rewrite with_tag_twice, <- Ht, with_tag_same.
Qed.

Lemma remove_reinsert_inverse_witness :
  (_remove_root_tag_prefix;; _reinsert_root_tag_prefix) parsed_packet
  = (Returns (), parsed_packet)
  /\ (_reinsert_root_tag_prefix;; _remove_root_tag_prefix) gcn_packet
     = (Returns (), gcn_packet).
Proof.
  split.
  - apply (remove_reinsert_inverse parsed_packet VOE_NS);
      [vm_compute; reflexivity | reflexivity].
  - apply (remove_reinsert_inverse gcn_packet VOE_NS);
      [vm_compute; reflexivity | reflexivity].
Defined.

(** X2: calling either half of the toggle twice is the same as calling it
    once: reinsert on any tree (with the same KeyError when [voe] is
    unbound), strip on any tree in prefixed form. *)
Theorem toggle_halves_idempotent v :
  (_reinsert_root_tag_prefix;; _reinsert_root_tag_prefix) v
  = _reinsert_root_tag_prefix v
  /\ (prefixed_form v ->
      (_remove_root_tag_prefix;; _remove_root_tag_prefix) v
      = _remove_root_tag_prefix v).
Proof.
  split.
  - unfold mbind, Py_bind.
    destruct (nsmap v !! Some "voe") as [U|] eqn:Hns.
    + rewrite (reinsert_bound v U Hns).
      by rewrite (reinsert_bound (with_tag (voevent_tag U) v) U Hns).
    + by rewrite (reinsert_unbound v Hns).
  - intros (U & L & Hns & HL & Ht). unfold mbind, Py_bind.
    rewrite (remove_prefixed v U L Hns HL Ht).
    rewrite (remove_absent (with_tag L v) U Hns); [done|].
    by apply bare_name_absent.
Qed.

Lemma toggle_halves_idempotent_witness :
  (_remove_root_tag_prefix;; _remove_root_tag_prefix) parsed_foo
  = _remove_root_tag_prefix parsed_foo.
Proof.
  apply (toggle_halves_idempotent parsed_foo).
  exists VOE_NS, "Foo". repeat split; vm_compute; reflexivity.
Defined.

(** ** Further properties: the codec and the validator *)

(** X3: [loads] returns a tree only for a well-formed document that binds
    [voe]; the tree it returns is the parsed one with nothing but the root
    tag rewritten (namespace map, attributes, text and children are those of
    the document), and a document that does not bind [voe] makes it raise
    KeyError for [voe], as [load] does for a file with these bytes. *)
Theorem loads_touches_root_tag_only d t validate :
  root_of d = Some t ->
  (forall v, loads d validate = Returns v ->
     exists U, nsmap t !! Some "voe" = Some U
       /\ tag v = PyStr.replace (tag t) ("{" +:+ U +:+ "}") ""
       /\ nsmap v = nsmap t /\ attrib v = attrib t
       /\ text v = text t /\ children v = children t)
  /\ (nsmap t !! Some "voe" = None ->
      loads d validate = Raises (KeyError "voe")
      /\ forall open_rb path, open_rb path = Returns d ->
           load open_rb path = Raises (KeyError "voe")).
Proof.
  intros Hd. destruct d as [raw|decl pp t']; [done|].
  cbn [root_of] in Hd. injection Hd as ->.
  unfold load, loads, returning_tree, fromstring. split.
  - intros v. destruct (nsmap t !! Some "voe") as [U|] eqn:Hns.
    + rewrite (remove_bound t U Hns). intros [= <-]. by exists U.
    + by rewrite (remove_unbound t Hns).
  - intros Hns. rewrite (remove_unbound t Hns). split; [done|].
    intros open_rb path ->. by rewrite (remove_unbound t Hns).
Qed.

Lemma loads_touches_root_tag_only_witness :
  (forall v, loads (Xml true true parsed_packet) false = Returns v ->
     exists U, nsmap parsed_packet !! Some "voe" = Some U
       /\ tag v = PyStr.replace (tag parsed_packet) ("{" +:+ U +:+ "}") ""
       /\ nsmap v = nsmap parsed_packet /\ attrib v = attrib parsed_packet
       /\ text v = text parsed_packet /\ children v = children parsed_packet)
  /\ loads (Xml true true unbound_packet) false = Raises (KeyError "voe").
Proof.
  split.
  - apply (loads_touches_root_tag_only (Xml true true parsed_packet)
             parsed_packet false). reflexivity.
  - apply (loads_touches_root_tag_only (Xml true true unbound_packet)
             unbound_packet false); [reflexivity | vm_compute; reflexivity].
Defined.

(** X4: on a tree that does not bind [voe], [dumps], [valid_as_v2_0] and
    [assert_valid_as_v2_0] raise KeyError for [voe] whatever the schema
    says, and the failed call has already removed the annotation attributes
    from the whole tree. *)
Theorem unbound_prefix_fails_after_cleanup schema v validate pp decl :
  nsmap v !! Some "voe" = None ->
  dumps validate pp decl v = (Raises (KeyError "voe"), deannotate_tree v)
  /\ valid_as_v2_0 schema v = (Raises (KeyError "voe"), deannotate_tree v)
  /\ assert_valid_as_v2_0 schema v
     = (Raises (KeyError "voe"), deannotate_tree v).
Proof.
  intros Hns.
  by rewrite (dumps_unbound v _ _ _ Hns), (valid_unbound schema v Hns),
    (assert_valid_unbound schema v Hns).
Qed.

Lemma unbound_prefix_fails_after_cleanup_witness :
  dumps false true true unbound_packet
  = (Raises (KeyError "voe"), deannotate_tree unbound_packet)
  /\ deannotate_tree unbound_packet <> unbound_packet.
Proof.
  split.
  - apply (unbound_prefix_fails_after_cleanup accept_all unbound_packet).
    vm_compute. reflexivity.
  - intros H. apply (f_equal annotation_free) in H.
    vm_compute in H. discriminate H.
Defined.

(** X5: [valid_as_v2_0] never raises DocumentInvalid: it returns a boolean
    or raises KeyError for [voe].  On a tree that binds [voe] it answers
    [True] exactly when [assert_valid_as_v2_0] returns normally and [False]
    exactly when that raises DocumentInvalid, and when it answers [True]
    both leave the same tree. *)
Theorem valid_agrees_with_assert_valid schema v :
  ((exists b, result (valid_as_v2_0 schema) v = Returns b)
   \/ result (valid_as_v2_0 schema) v = Raises (KeyError "voe"))
  /\ (forall U, nsmap v !! Some "voe" = Some U ->
      (result (valid_as_v2_0 schema) v = Returns true
       <-> result (assert_valid_as_v2_0 schema) v = Returns ())
      /\ (result (valid_as_v2_0 schema) v = Returns false
          <-> exists reason,
                result (assert_valid_as_v2_0 schema) v
                = Raises (DocumentInvalid reason))
      /\ (result (valid_as_v2_0 schema) v = Returns true ->
          tree_after (valid_as_v2_0 schema) v
          = tree_after (assert_valid_as_v2_0 schema) v)).
Proof.
  unfold result, tree_after. split.
  - destruct (nsmap v !! Some "voe") as [U|] eqn:Hns.
    + left. rewrite (valid_bound schema v U Hns). by eexists.
    + right. by rewrite (valid_unbound schema v Hns).
  - intros U Hns. rewrite (valid_bound schema v U Hns). cbn [fst snd].
    destruct (schema (standard_xml U v)) as [reason|] eqn:Hs.
    + rewrite (assert_valid_rejects schema v U reason Hns Hs). cbn [fst snd].
      rewrite bool_decide_eq_false_2 by done.
      repeat split; try done. by exists reason.
    + rewrite (assert_valid_accepts schema v U Hns Hs). cbn [fst snd].
      rewrite bool_decide_eq_true_2 by done.
      repeat split; try done. by intros [? ?].
Qed.

Lemma valid_agrees_with_assert_valid_witness :
  (result (valid_as_v2_0 require_who) gcn_packet = Returns false
   <-> exists reason,
         result (assert_valid_as_v2_0 require_who) gcn_packet
         = Raises (DocumentInvalid reason))
  /\ result (valid_as_v2_0 require_who) gcn_packet = Returns false.
Proof.
  split.
  - apply (proj2 (valid_agrees_with_assert_valid require_who gcn_packet)
             VOE_NS). vm_compute. reflexivity.
  - vm_compute. reflexivity.
Defined.

(** X6: serialising is repeatable.  On a tree that binds [voe], a second
    [dumps] returns the same document as the first (the formatting being
    that of its own flags) and leaves the tree as the first call left it. *)
Theorem dumps_twice_same_document v U validate validate' pp pp' decl decl' :
  nsmap v !! Some "voe" = Some U ->
  exists out,
    result (dumps validate pp decl) v = Returns (Xml decl pp out)
    /\ dumps validate' pp' decl' (tree_after (dumps validate pp decl) v)
       = (Returns (Xml decl' pp' out), tree_after (dumps validate pp decl) v).
Proof.
  intros Hns. exists (standard_xml U v). unfold result, tree_after.
  rewrite (dumps_bound v U _ _ _ Hns). cbn [fst snd]. split; [done|].
  rewrite (dumps_bound _ U); [|by rewrite <- Hns, <- (nsmap_deannotate v)].
  by rewrite standard_xml_idem, deannotate_with_tag, deannotate_idem,
    with_tag_twice.
Qed.

Lemma dumps_twice_same_document_witness :
  exists out,
    result (dumps false true true) annotated_packet = Returns (Xml true true out)
    /\ dumps false false false
         (tree_after (dumps false true true) annotated_packet)
       = (Returns (Xml false false out),
          tree_after (dumps false true true) annotated_packet).
Proof.
  apply (dumps_twice_same_document annotated_packet VOE_NS).
  vm_compute. reflexivity.
Defined.

(** X7: reading back what was written.  On a tree that binds [voe], [loads]
    applied to the bytes that [dumps] returned gives exactly the tree that
    [dumps] left in the caller's hands. *)
Theorem loads_of_dumps v U validate validate' pp decl :
  nsmap v !! Some "voe" = Some U ->
  exists s,
    result (dumps validate pp decl) v = Returns s
    /\ loads s validate' = Returns (tree_after (dumps validate pp decl) v).
Proof.
  intros Hns. exists (Xml decl pp (standard_xml U v)).
  unfold result, tree_after. rewrite (dumps_bound v U _ _ _ Hns).
  cbn [fst snd]. split; [done|].
  rewrite (loads_voevent (standard_xml U v) U); [done| |done].
  by rewrite standard_xml_nsmap.
Qed.

Lemma loads_of_dumps_witness :
  exists s,
    result (dumps false true true) loaded_foo = Returns s
    /\ loads s false = Returns (tree_after (dumps false true true) loaded_foo).
Proof.
  apply (loads_of_dumps loaded_foo VOE_NS). vm_compute. reflexivity.
Defined.

(** X8: [dumps], [valid_as_v2_0] and [assert_valid_as_v2_0] leave no
    annotation attribute anywhere in the caller's tree, whether they return
    or raise, and the document that [dumps] returns carries none either. *)
Theorem annotations_never_survive schema v validate pp decl :
  annotation_free (tree_after (dumps validate pp decl) v) = true
  /\ annotation_free (tree_after (valid_as_v2_0 schema) v) = true
  /\ annotation_free (tree_after (assert_valid_as_v2_0 schema) v) = true
  /\ (forall s, result (dumps validate pp decl) v = Returns s ->
      exists out, root_of s = Some out /\ annotation_free out = true).
Proof.
  assert (Hw : forall t w, annotation_free (with_tag t (deannotate_tree w)) = true).
  { intros t w. rewrite <- deannotate_with_tag. apply annotation_free_deannotate. }
  unfold result, tree_after.
  destruct (nsmap v !! Some "voe") as [U|] eqn:Hns.
  - rewrite (dumps_bound v U _ _ _ Hns), (valid_bound schema v U Hns).
    cbn [fst snd]. repeat split; try apply Hw.
    + destruct (schema (standard_xml U v)) as [reason|] eqn:Hs.
      * rewrite (assert_valid_rejects schema v U reason Hns Hs). apply Hw.
      * rewrite (assert_valid_accepts schema v U Hns Hs). apply Hw.
    + intros s [= <-]. eexists. split; [done | apply Hw].
  - rewrite (dumps_unbound v _ _ _ Hns), (valid_unbound schema v Hns),
      (assert_valid_unbound schema v Hns). cbn [fst snd].
    repeat split; try apply annotation_free_deannotate. discriminate.
Qed.

(** X9: validating after serialising judges the document that was written:
    on a tree that binds [voe], [valid_as_v2_0] called on the tree that
    [dumps] left answers whether the schema accepts the root of the bytes
    that [dumps] returned, and leaves that tree as it is. *)
Theorem valid_after_dumps schema v U validate pp decl :
  nsmap v !! Some "voe" = Some U ->
  exists out,
    result (dumps validate pp decl) v = Returns (Xml decl pp out)
    /\ valid_as_v2_0 schema (tree_after (dumps validate pp decl) v)
       = (Returns (bool_decide (schema out = None)),
          tree_after (dumps validate pp decl) v).
Proof.
  intros Hns. exists (standard_xml U v). unfold result, tree_after.
  rewrite (dumps_bound v U _ _ _ Hns). cbn [fst snd]. split; [done|].
  rewrite (valid_bound schema _ U);
    [|by rewrite <- Hns, <- (nsmap_deannotate v)].
  by rewrite standard_xml_idem, deannotate_with_tag, deannotate_idem,
    with_tag_twice.
Qed.

Lemma valid_after_dumps_witness :
  exists out,
    result (dumps false true true) annotated_packet = Returns (Xml true true out)
    /\ valid_as_v2_0 require_who
         (tree_after (dumps false true true) annotated_packet)
       = (Returns (bool_decide (require_who out = None)),
          tree_after (dumps false true true) annotated_packet).
Proof.
  apply (valid_after_dumps require_who annotated_packet VOE_NS).
  vm_compute. reflexivity.
Defined.

(** X10: [dump] writes to the file exactly once, the bytes that [dumps]
    returns, and leaves the tree as [dumps] does, when the tree binds [voe];
    when it does not, KeyError is raised before anything reaches the file,
    the tree having lost its annotations all the same. *)
Theorem dump_writes_once_or_never v file validate pp decl :
  (forall U, nsmap v !! Some "voe" = Some U ->
     dump validate pp decl v file
     = (Returns (), with_tag "VOEvent" (deannotate_tree v),
        (file ++ [Xml decl pp (standard_xml U v)])%list))
  /\ (nsmap v !! Some "voe" = None ->
      dump validate pp decl v file
      = (Raises (KeyError "voe"), deannotate_tree v, file)).
Proof.
  unfold dump. split.
  - intros U Hns. by rewrite (dumps_bound v U _ _ _ Hns).
  - intros Hns. by rewrite (dumps_unbound v _ _ _ Hns).
Qed.

Lemma dump_writes_once_or_never_witness :
  dump false true true gcn_packet []
  = (Returns (), with_tag "VOEvent" (deannotate_tree gcn_packet),
     [Xml true true (standard_xml VOE_NS gcn_packet)])
  /\ dump false true true unbound_packet []
     = (Raises (KeyError "voe"), deannotate_tree unbound_packet, []).
Proof.
  split.
  - apply (proj1 (dump_writes_once_or_never gcn_packet [] false true true)
             VOE_NS). vm_compute. reflexivity.
  - apply (dump_writes_once_or_never unbound_packet [] false true true).
    vm_compute. reflexivity.
Defined.

(** ** Further properties: the packet builder *)



(** X12: a packet that [make_voevent] built with validation passes
    [valid_as_v2_0], which answers [True] and leaves the packet exactly as
    it was. *)
Theorem made_voevent_is_valid schema skel t0 ivorn role v :
  root_of skel = Some t0 ->
  make_voevent schema skel ivorn role true = Returns v ->
  valid_as_v2_0 schema v = (Returns true, v).
Proof.
  intros Hskel Hv.
  destruct (nsmap t0 !! Some "voe") as [U|] eqn:Hns.
  - rewrite (make_voevent_run schema skel t0 U ivorn role true Hskel Hns)
      in Hv. cbv zeta in Hv.
    destruct (PyStr.xml_compatible ivorn && PyStr.xml_compatible role);
      [|done].
    set (stamped := with_attrib _ _) in Hv.
    destruct (schema (standard_xml U stamped)) eqn:Hs; [done|].
    assert (Hv' : v = with_tag "VOEvent" (deannotate_tree stamped))
      by congruence.
    rewrite Hv'. clear Hv Hv'.
    rewrite (valid_bound schema _ U);
      [|change (nsmap (deannotate_tree stamped) !! Some "voe" = Some U);
        by rewrite nsmap_deannotate].
    rewrite standard_xml_idem, Hs, deannotate_with_tag, deannotate_idem,
      with_tag_twice.
    by rewrite bool_decide_eq_true_2.
  - destruct skel as [raw|decl pp t']; [done|].
    cbn [root_of] in Hskel. injection Hskel as ->.
    unfold make_voevent, returning_tree, fromstring, mbind, Py_bind in Hv.
    by rewrite (remove_unbound t0 Hns) in Hv.
Qed.

Lemma made_voevent_is_valid_witness :
  exists v,
    make_voevent require_who (Xml true true skeleton) "a/b#1" "test" true
    = Returns v
    /\ valid_as_v2_0 require_who v = (Returns true, v).
Proof.
  exists stamped_skeleton. split; [vm_compute; reflexivity|].
  apply (made_voevent_is_valid require_who (Xml true true skeleton) skeleton
           "a/b#1" "test"); [reflexivity | vm_compute; reflexivity].
Defined.

(** X13: the ways [make_voevent] fails.  A skeleton that is not XML makes
    it raise XMLSyntaxError, a skeleton that does not bind [voe] KeyError
    for [voe], whatever the arguments; with a skeleton that binds [voe], an
    ivorn or a role holding a byte that lxml does not take makes it raise
    ValueError, with or without validation.  It raises nothing else, apart
    from DocumentInvalid when validation was asked for, and without
    validation a skeleton that binds [voe] always gives a packet for an
    ivorn and a role that lxml takes. *)
Theorem make_voevent_failures schema skel ivorn role validate :
  (root_of skel = None ->
   make_voevent schema skel ivorn role validate = Raises XMLSyntaxError)
  /\ (forall t0, root_of skel = Some t0 -> nsmap t0 !! Some "voe" = None ->
      make_voevent schema skel ivorn role validate = Raises (KeyError "voe"))
  /\ (forall t0 U, root_of skel = Some t0 -> nsmap t0 !! Some "voe" = Some U ->
      PyStr.xml_compatible ivorn && PyStr.xml_compatible role = false ->
      make_voevent schema skel ivorn role validate
      = Raises (ValueError XML_COMPATIBLE_MESSAGE))
  /\ (forall e, make_voevent schema skel ivorn role validate = Raises e ->
      e = XMLSyntaxError \/ e = KeyError "voe"
      \/ (e = ValueError XML_COMPATIBLE_MESSAGE
          /\ PyStr.xml_compatible ivorn && PyStr.xml_compatible role = false)
      \/ (validate = true /\ exists reason, e = DocumentInvalid reason))
  /\ (forall t0 U, root_of skel = Some t0 -> nsmap t0 !! Some "voe" = Some U ->
      PyStr.xml_compatible ivorn = true -> PyStr.xml_compatible role = true ->
      exists v, make_voevent schema skel ivorn role false = Returns v).
Proof.
  assert (Hunb : forall t0 decl pp, nsmap t0 !! Some "voe" = None ->
            make_voevent schema (Xml decl pp t0) ivorn role validate
            = Raises (KeyError "voe")).
  { intros t0 decl pp Hns.
    unfold make_voevent, returning_tree, fromstring, mbind, Py_bind.
    by rewrite (remove_unbound t0 Hns). }
  split; [|split; [|split; [|split]]].
  - by destruct skel.
  - intros t0 Hskel Hns. destruct skel as [raw|decl pp t']; [done|].
    cbn [root_of] in Hskel. injection Hskel as ->. by apply Hunb.
  - intros t0 U Hskel Hns Hbad.
    rewrite (make_voevent_run schema skel t0 U ivorn role validate Hskel Hns).
    cbv zeta. by rewrite Hbad.
  - intros e He. destruct skel as [raw|decl pp t0].
    + left. cbn in He. congruence.
    + destruct (nsmap t0 !! Some "voe") as [U|] eqn:Hns.
      * rewrite (make_voevent_run schema (Xml decl pp t0) t0 U ivorn role
                   validate eq_refl Hns) in He. cbv zeta in He.
        destruct (PyStr.xml_compatible ivorn && PyStr.xml_compatible role)
          eqn:Hcompat.
        -- destruct validate; [|done].
           destruct (schema _) as [reason|]; [|done].
           right. right. right. split; [done|]. exists reason. congruence.
        -- right. right. left. split; [congruence | done].
      * right. left. rewrite (Hunb t0 decl pp Hns) in He. congruence.
  - intros t0 U Hskel Hns Hivorn Hrole.
    rewrite (make_voevent_run schema skel t0 U ivorn role false Hskel Hns).
    cbv zeta. rewrite Hivorn, Hrole. by eexists.
Qed.

Lemma make_voevent_failures_witness :
  make_voevent accept_all (Xml true true unbound_packet) "a/b#1" "test" true
  = Raises (KeyError "voe")
  /\ make_voevent accept_all (NotXml "not xml") "a/b#1" "test" true
     = Raises XMLSyntaxError
  /\ make_voevent accept_all (Xml true true skeleton) nul_ivorn "test" false
     = Raises (ValueError XML_COMPATIBLE_MESSAGE)
  /\ exists v,
       make_voevent accept_all (Xml true true skeleton) "a/b#1" "test" false
       = Returns v.
Proof.
  split; [|split; [|split]].
  - apply (make_voevent_failures accept_all (Xml true true unbound_packet)
             "a/b#1" "test" true) with (t0 := unbound_packet);
      [reflexivity | vm_compute; reflexivity].
  - apply (make_voevent_failures accept_all (NotXml "not xml")
             "a/b#1" "test" true). reflexivity.
  - apply (proj1 (proj2 (proj2 (make_voevent_failures accept_all
             (Xml true true skeleton) nul_ivorn "test" false)))
             skeleton VOE_NS); vm_compute; reflexivity.
  - apply (proj2 (proj2 (proj2 (proj2 (make_voevent_failures accept_all
             (Xml true true skeleton) "a/b#1" "test" false))))
             skeleton VOE_NS); vm_compute; reflexivity.
Defined.

(** ** Further properties: the coordinate extractor *)

(** One step of the extractor on two trees that share their lookups. *)
Ltac shared_step :=
  run_lookups;
  try match goal with
      | |- context [lookup_child ?e ?n] =>
          let E := fresh "E" in destruct (lookup_child e n) eqn:E
      | |- context [attrib ?e !! ?k] =>
          let E := fresh "E" in destruct (attrib e !! k) eqn:E
      | |- context [elem_eq_str ?e ?s] =>
          let E := fresh "E" in destruct (elem_eq_str e s) eqn:E
      end;
  cbv beta iota.

(** The extractor looks at the root tag only for its namespace. *)
Lemma pull_astro_coords_with_tag t v :
  tag_namespace t = tag_namespace (tag v) ->
  pull_astro_coords (with_tag t v)
  = (result pull_astro_coords v, with_tag t v).
Proof.
  intros Ht. unfold result. unfold_pull.
  rewrite !(lookup_child_with_tag t v _ Ht).
  repeat (progress shared_step); reflexivity.
Qed.

(** X14: the extractor needs the stripped root.  On a tree whose root tag
    is [{U}VOEvent] and whose children are in no namespace it raises
    AttributeError for [WhereWhen], whatever the tree holds; this is the
    tree that [assert_valid_as_v2_0] leaves when the schema rejects, so
    after a failed validation the extractor fails on a packet it could
    read before. *)
Theorem extractor_needs_stripped_root schema v U :
  nsmap v !! Some "voe" = Some U ->
  unqualified_children v = true ->
  (tag v = voevent_tag U ->
   pull_astro_coords v = (Raises (AttributeError "WhereWhen"), v))
  /\ (forall reason, schema (standard_xml U v) = Some reason ->
      result pull_astro_coords (tree_after (assert_valid_as_v2_0 schema) v)
      = Raises (AttributeError "WhereWhen")).
Proof.
  intros Hns Hq. split.
  - intros Ht. unfold_pull. by rewrite (lookup_child_qualified v U).
  - intros reason Hs. unfold result, tree_after.
    rewrite (assert_valid_rejects schema v U reason Hns Hs). cbn [snd].
    unfold_pull. rewrite (lookup_child_qualified (standard_xml U v) U); try done.
    unfold unqualified_children, standard_xml in *.
    cbn [with_tag children]. rewrite children_deannotate.
    induction (children v) as [|c cs IH]; [done|].
    cbn [map forallb] in *. apply andb_true_iff in Hq as [Hc Hcs].
    by rewrite tag_deannotate, Hc, IH.
Qed.

Lemma extractor_needs_stripped_root_witness :
  pull_astro_coords prefixed_gcn_packet
  = (Raises (AttributeError "WhereWhen"), prefixed_gcn_packet)
  /\ (exists c, result pull_astro_coords gcn_packet = Returns c)
  /\ result pull_astro_coords
       (tree_after (assert_valid_as_v2_0 require_who) gcn_packet)
     = Raises (AttributeError "WhereWhen").
Proof.
  split; [|split].
  - apply (extractor_needs_stripped_root accept_all prefixed_gcn_packet VOE_NS);
      vm_compute; reflexivity.
  - eexists. vm_compute. reflexivity.
  - apply (proj2 (extractor_needs_stripped_root require_who gcn_packet VOE_NS
                    ltac:(vm_compute; reflexivity)
                    ltac:(vm_compute; reflexivity))
             "Element VOEvent: Missing child element(s). Expected is ( Who ).").
    vm_compute. reflexivity.
Defined.

(** X15: whenever the position node is there and an axis name is wrong,
    Name1 not equal to RA, or Name2 present and not equal to Dec, the
    extractor raises AssertionError, whatever values and radius the node
    holds or lacks; the tree is untouched. *)
Theorem axis_mismatch_raises_AssertionError v ac acs sys p n1 :
  descend v AstroCoords_path = Some ac ->
  descend v AstroCoordSystem_path = Some acs ->
  attrib acs !! "id" = Some sys ->
  lookup_child ac "Position2D" = Some p ->
  lookup_child p "Name1" = Some n1 ->
  (elem_eq_str n1 "RA" = false
   \/ exists n2, lookup_child p "Name2" = Some n2
                 /\ elem_eq_str n2 "Dec" = false) ->
  pull_astro_coords v = (Raises AssertionError, v).
Proof.
  intros Hac Hsys Hid Hp Hn1 Hbad. open_path Hac. open_path Hsys.
  unfold_pull. run_lookups.
  destruct (elem_eq_str n1 "RA") eqn:Hra; cbv beta iota; [|done].
  destruct Hbad as [?|(n2 & Hn2 & Hdec)]; [done|].
  run_lookups. reflexivity.
Qed.

Lemma axis_mismatch_raises_AssertionError_witness :
  pull_astro_coords mixed_axes_packet = (Raises AssertionError, mixed_axes_packet).
Proof.
  apply (axis_mismatch_raises_AssertionError mixed_axes_packet
           (node "AstroCoords" [position2d "RA" "DEC" "123.4" "-56.7" "0.01"])
           (mkElement "AstroCoordSystem" ∅ {[ "id" := "UTC-FK5-GEO" ]} None [])
           "UTC-FK5-GEO"
           (position2d "RA" "DEC" "123.4" "-56.7" "0.01")
           (leaf "Name1" "RA"));
    try (vm_compute; reflexivity).
  right. exists (leaf "Name2" "DEC"). split; vm_compute; reflexivity.
Defined.

(** X16: the extractor returns a record only for the shape it knows: when
    it returns, the AstroCoordSystem is there and its [id] is the record's
    system, Name1 and Name2 are there and equal RA and Dec, the record's
    [ra], [dec] and [ra_err] are the C1, C2 and Error2Radius elements of the
    tree, [dec_err] is [ra_err] and the units are degrees. *)
Theorem pull_astro_coords_returns_only_equatorial v c :
  result pull_astro_coords v = Returns c ->
  (exists acs, descend v AstroCoordSystem_path = Some acs
               /\ attrib acs !! "id" = Some (system c))
  /\ (exists n1, descend v (AstroCoords_path ++ ["Position2D"; "Name1"]) = Some n1
                 /\ elem_eq_str n1 "RA" = true)
  /\ (exists n2, descend v (AstroCoords_path ++ ["Position2D"; "Name2"]) = Some n2
                 /\ elem_eq_str n2 "Dec" = true)
  /\ descend v (AstroCoords_path ++ ["Position2D"; "Value2"; "C1"]) = Some (ra c)
  /\ descend v (AstroCoords_path ++ ["Position2D"; "Value2"; "C2"]) = Some (dec c)
  /\ descend v (AstroCoords_path ++ ["Position2D"; "Error2Radius"])
     = Some (ra_err c)
  /\ dec_err c = ra_err c
  /\ units c = "degrees".
Proof.
  unfold result, AstroCoordSystem_path, AstroCoords_path, WhereWhen_path.
  cbn [app descend]. unfold_pull.
  repeat (progress shared_step;
          try solve [cbn [fst]; intros H; discriminate H]).
  cbn [fst]. intros [= <-]. cbn [system ra dec ra_err dec_err units].
  repeat split; eauto.
Qed.

Lemma pull_astro_coords_returns_only_equatorial_witness :
  descend gcn_packet (AstroCoords_path ++ ["Position2D"; "Value2"; "C1"])
  = Some (leaf "C1" "123.4").
Proof.
  apply (pull_astro_coords_returns_only_equatorial gcn_packet
           (mkCoords (leaf "C1" "123.4") (leaf "C2" "-56.7")
                     (leaf "Error2Radius" "0.01") (leaf "Error2Radius" "0.01")
                     "degrees" "UTC-FK5-GEO")).
  vm_compute. reflexivity.
Defined.

(** X17: serialising or validating a loaded packet that carries no
    annotation attribute does not change what the extractor reads from it.
    On a stripped tree that binds [voe] and is free of annotations, the
    extractor's outcome on the tree that [dumps] or [valid_as_v2_0] left is
    its outcome on the tree before, same exception or same record, also
    when the root was renamed to [VOEvent] on the way. *)
Theorem extractor_unaffected_by_serialising schema v U validate pp decl :
  nsmap v !! Some "voe" = Some U ->
  stripped_form v ->
  annotation_free v = true ->
  result pull_astro_coords (tree_after (dumps validate pp decl) v)
  = result pull_astro_coords v
  /\ result pull_astro_coords (tree_after (valid_as_v2_0 schema) v)
     = result pull_astro_coords v.
Proof.
  intros Hns Hbare Hfree. unfold stripped_form in Hbare.
  assert (H : result pull_astro_coords (with_tag "VOEvent" (deannotate_tree v))
              = result pull_astro_coords v).
  { rewrite (deannotate_free v Hfree). unfold result at 1.
    rewrite pull_astro_coords_with_tag; [done|].
    by rewrite (tag_namespace_bare (tag v)). }
  unfold tree_after.
  by rewrite (dumps_bound v U _ _ _ Hns), (valid_bound schema v U Hns).
Qed.

Lemma extractor_unaffected_by_serialising_witness :
  result pull_astro_coords (tree_after (dumps false true true) gcn_packet)
  = result pull_astro_coords gcn_packet
  /\ result pull_astro_coords
       (tree_after (valid_as_v2_0 require_who) gcn_packet)
     = result pull_astro_coords gcn_packet.
Proof.
  apply (extractor_unaffected_by_serialising require_who gcn_packet VOE_NS);
    vm_compute; reflexivity.
Defined.

(** ** Further properties: recovery and loss *)

(** X18: recovering from a failed validation.  When the schema rejects, the
    tree that [assert_valid_as_v2_0] left in prefixed form is brought back
    to the stripped tree, the one a successful validation would have left,
    by one more strip, and also by [valid_as_v2_0], which answers
    [False]. *)
Theorem stripped_form_recovered_after_rejection schema v U reason :
  nsmap v !! Some "voe" = Some U ->
  schema (standard_xml U v) = Some reason ->
  _remove_root_tag_prefix (tree_after (assert_valid_as_v2_0 schema) v)
  = (Returns (), with_tag "VOEvent" (deannotate_tree v))
  /\ valid_as_v2_0 schema (tree_after (assert_valid_as_v2_0 schema) v)
     = (Returns false, with_tag "VOEvent" (deannotate_tree v)).
Proof.
  intros Hns Hs. unfold tree_after.
  rewrite (assert_valid_rejects schema v U reason Hns Hs). cbn [snd].
  assert (Hstd : nsmap (standard_xml U v) !! Some "voe" = Some U)
    by (by rewrite standard_xml_nsmap).
  split.
  - by rewrite (remove_voevent (standard_xml U v) U Hstd eq_refl).
  - rewrite (valid_bound schema _ U Hstd).
    rewrite standard_xml_twice, Hs, with_tag_deannotate_standard.
    by rewrite bool_decide_eq_false_2.
Qed.

Lemma stripped_form_recovered_after_rejection_witness :
  _remove_root_tag_prefix
    (tree_after (assert_valid_as_v2_0 require_who) gcn_packet)
  = (Returns (), with_tag "VOEvent" (deannotate_tree gcn_packet))
  /\ valid_as_v2_0 require_who
       (tree_after (assert_valid_as_v2_0 require_who) gcn_packet)
     = (Returns false, with_tag "VOEvent" (deannotate_tree gcn_packet)).
Proof.
  apply (stripped_form_recovered_after_rejection require_who gcn_packet VOE_NS
           "Element VOEvent: Missing child element(s). Expected is ( Who ).");
    vm_compute; reflexivity.
Defined.

(** X19: what the round trip loses.  For a document whose root is
    [{U}VOEvent], [U] bound to [voe], that carries an annotation attribute
    (py:pytype or xsi:type) on some element, [dumps (loads d)] returns a
    document that is not [d]: it carries no annotation attribute. *)
Theorem round_trip_drops_annotations d t U validate validate' pp decl :
  root_of d = Some t ->
  nsmap t !! Some "voe" = Some U -> tag t = voevent_tag U ->
  annotation_free t = false ->
  exists v out,
    loads d validate = Returns v
    /\ result (dumps validate' pp decl) v = Returns (Xml decl pp out)
    /\ annotation_free out = true
    /\ ~ same_document (Xml decl pp out) d.
Proof.
  intros Hd Hns Ht Hann. destruct d as [raw|decl0 pp0 t']; [done|].
  cbn [root_of] in Hd. injection Hd as ->.
  exists (with_tag "VOEvent" t), (deannotate_tree t).
  split; [by apply (loads_voevent t U)|]. split.
  - unfold result. rewrite (dumps_bound _ U); [|done]. cbn [fst].
    by rewrite (standard_xml_loaded U t Ht).
  - split; [apply annotation_free_deannotate|].
    cbn [same_document]. intros Heq.
    pose proof (annotation_free_deannotate t) as Hfree.
    rewrite Heq in Hfree. congruence.
Qed.

Lemma round_trip_drops_annotations_witness :
  exists v out,
    loads (Xml true true (with_tag (voevent_tag VOE_NS) annotated_packet)) false
    = Returns v
    /\ result (dumps false true true) v = Returns (Xml true true out)
    /\ annotation_free out = true
    /\ ~ same_document (Xml true true out)
         (Xml true true (with_tag (voevent_tag VOE_NS) annotated_packet)).
Proof.
  apply (round_trip_drops_annotations
           (Xml true true (with_tag (voevent_tag VOE_NS) annotated_packet))
           (with_tag (voevent_tag VOE_NS) annotated_packet) VOE_NS);
    vm_compute; reflexivity.
Defined.
